(** * Subscription controller of support-desk

    A shallow embedding of [backend/controllers/subscriptionController.js]:
    the four Express handlers [createCheckoutSession], [webHook],
    [cancelPayment] and [cancelSubscription], and the helper
    [handleCreateSubscription].

    The handlers are written in a state-and-exception monad over a [world]
    that holds the two Mongoose collections, the users, the calls made to
    the payment processor and the status code of the response object. *)

From Stdlib Require Import ZArith String List Bool Lia.
Import ListNotations.
Local Open Scope string_scope.
Local Open Scope Z_scope.

(** ** JavaScript values *)

Module Js.

(** The values a JSON body can hold, plus [undefined] and [Date].  Numbers
    are kept as integers: the handlers only test numbers for truthiness and
    hand them on.  An object is the list of its own properties. *)
#[warnings="-register-all"]
Inductive value : Type :=
| VUndef
| VNull
| VBool (b : bool)
| VNum (n : Z)
| VStr (s : string)
| VDate (ms : Z)
| VArr (items : list value)
| VObj (fields : list (string * value)).

Definition object := list (string * value).

(** ToBoolean. *)
Definition truthy (v : value) : bool :=
  match v with
  | VUndef | VNull => false
  | VBool b => b
  | VNum n => negb (n =? 0)
  | VStr s => negb (s =? EmptyString)%string
  | VDate _ | VArr _ | VObj _ => true
  end.

Definition nullish (v : value) : bool :=
  match v with
  | VUndef | VNull => true
  | _ => false
  end.

(** [o.k] on an object known to be one (a parsed body): the entry for [k]
    (an object has one entry per property name), [undefined] when there is
    none. *)
Fixpoint prop (o : object) (k : string) : value :=
  match o with
  | [] => VUndef
  | (k', v) :: rest => if (k' =? k)%string then v else prop rest k
  end.

(** [v.k] on any value.  Reading a property of [undefined] or [null] is a
    TypeError ([None]); the property names the handlers read are own
    properties of objects only, so every other value gives [undefined]. *)
Definition get (v : value) (k : string) : option value :=
  match v with
  | VUndef | VNull => None
  | VObj o => Some (prop o k)
  | _ => Some VUndef
  end.

(** [v === "s"] against a string literal. *)
Definition is_str (v : value) (s : string) : bool :=
  match v with
  | VStr s' => (s' =? s)%string
  | _ => false
  end.

(** Equality of two values as a store filter [{field: v}] tests it. *)
Fixpoint value_eqb (a b : value) : bool :=
  match a, b with
  | VUndef, VUndef => true
  | VNull, VNull => true
  | VBool x, VBool y => Bool.eqb x y
  | VNum x, VNum y => x =? y
  | VStr x, VStr y => (x =? y)%string
  | VDate x, VDate y => x =? y
  | VArr xs, VArr ys =>
      (fix items (l1 l2 : list value) : bool :=
         match l1, l2 with
         | [], [] => true
         | x :: t1, y :: t2 => value_eqb x y && items t1 t2
         | _, _ => false
         end) xs ys
  | VObj xs, VObj ys =>
      (fix fields (l1 l2 : list (string * value)) : bool :=
         match l1, l2 with
         | [], [] => true
         | (k1, x) :: t1, (k2, y) :: t2 =>
             (k1 =? k2)%string && value_eqb x y && fields t1 t2
         | _, _ => false
         end) xs ys
  | _, _ => false
  end.

End Js.
Import Js.

(** ** The two collections *)

(** An ObjectId, by its hexadecimal string. *)
Definition oid := string.

(** Modelled from the spec: the schema of [subscriptionModel] (the model
    file is not part of the controller); the fields are those the
    controller writes, each holding the value it was given. *)
Record Subscription : Type := mkSubscription {
  sub_id : oid;
  userId : value;
  subscriptionId : value;
  subscriptionStatus : value;
  startDate : value;
  endDate : value;
  paymentStatus : value;
  subscriptionType : value;
  customerId : value;
  priceId : value
}.

(** Modelled from the spec: the schema of [paymentLogModel]. *)
Record PaymentLog : Type := mkPaymentLog {
  log_id : oid;
  log_userId : value;
  request : value;
  response : value;
  status : value;
  event : value
}.

(** [Model.findOne(filter)]: the first document the filter accepts. *)
Definition findOne {A : Type} (filter : A -> bool) (docs : list A) : option A :=
  find filter docs.

(** [Model.updateOne(filter, patch)]: the first document the filter accepts
    is patched, the others are left as they are. *)
Fixpoint updateOne {A : Type} (filter : A -> bool) (patch : A -> A)
    (docs : list A) : list A :=
  match docs with
  | [] => []
  | d :: rest =>
      if filter d then patch d :: rest else d :: updateOne filter patch rest
  end.

(** A filter [{field: q}] against the stored value of the field.  A string
    is matched by equality.  Every other filter value (an operator object
    such as [{$ne: null}], [null], a number, a sub-document) is matched as
    the query language of the store says, [store]: that language belongs to
    Mongoose and MongoDB, not to the controller, which hands the value on
    unchecked. *)
Definition filter_match (store : value -> value -> bool) (stored q : value)
  : bool :=
  match q with
  | VStr s => is_str stored s
  | _ => store stored q
  end.

(** The filter [{_id: v}] against a document whose id is [i]. *)
Definition has_id (store : value -> value -> bool) (v : value) (i : oid) : bool :=
  filter_match store (VStr i) v.

(** The filter [{endDate: {$gte: now}}]: only a date compares with a date. *)
Definition date_gte (v : value) (now : Z) : bool :=
  match v with
  | VDate ms => now <=? ms
  | _ => false
  end.

(** ** The world of a request *)

Inductive stripe_call : Type :=
| ProductsList
| CheckoutSessionsCreate (params : value)
| SubscriptionsUpdate (id : value) (params : value).

Record world : Type := mkWorld {
  subscriptions : list Subscription;
  paymentLogs : list PaymentLog;
  users : list oid;                 (* the ids of the User collection *)
  stripe_products : list value;     (* [data] of [stripe.products.list()] *)
  stripe_calls : list stripe_call;  (* requests sent to the processor *)
  oid_counter : nat;                (* ObjectIds handed out so far *)
  clock : Z;                        (* [new Date()], in milliseconds *)
  res_status : Z                    (* [res.statusCode]; Express starts at 200 *)
}.

Definition set_subscriptions (l : list Subscription) (w : world) : world :=
  mkWorld l (paymentLogs w) (users w) (stripe_products w) (stripe_calls w)
    (oid_counter w) (clock w) (res_status w).

Definition set_paymentLogs (l : list PaymentLog) (w : world) : world :=
  mkWorld (subscriptions w) l (users w) (stripe_products w) (stripe_calls w)
    (oid_counter w) (clock w) (res_status w).

Definition set_stripe_calls (l : list stripe_call) (w : world) : world :=
  mkWorld (subscriptions w) (paymentLogs w) (users w) (stripe_products w) l
    (oid_counter w) (clock w) (res_status w).

Definition set_oid_counter (n : nat) (w : world) : world :=
  mkWorld (subscriptions w) (paymentLogs w) (users w) (stripe_products w)
    (stripe_calls w) n (clock w) (res_status w).

Definition set_res_status (c : Z) (w : world) : world :=
  mkWorld (subscriptions w) (paymentLogs w) (users w) (stripe_products w)
    (stripe_calls w) (oid_counter w) (clock w) c.

(** ** The handler monad *)

Inductive exn : Type :=
| Error (message : string)   (* [throw new Error(message)] *)
| TypeError.                 (* a property read on [undefined] or [null] *)

Inductive result (A : Type) : Type :=
| Ok (a : A)
| Throw (e : exn).
Arguments Ok {A} a.
Arguments Throw {A} e.

Definition M (A : Type) : Type := world -> result A * world.

Definition ret {A : Type} (a : A) : M A := fun w => (Ok a, w).

Definition bind {A B : Type} (m : M A) (k : A -> M B) : M B :=
  fun w =>
    match m w with
    | (Ok a, w') => k a w'
    | (Throw e, w') => (Throw e, w')
    end.

Definition throw {A : Type} (e : exn) : M A := fun w => (Throw e, w).

Definition gets {A : Type} (f : world -> A) : M A := fun w => (Ok (f w), w).

Definition modify (f : world -> world) : M unit := fun w => (Ok tt, f w).

Declare Scope js_scope.
Delimit Scope js_scope with js.
Notation "x <- m ;; k" := (bind m (fun x => k))
  (at level 100, m at next level, right associativity) : js_scope.
Notation "m ;; k" := (bind m (fun _ => k))
  (at level 100, right associativity) : js_scope.
Local Open Scope js_scope.

(** A property read inside a handler. *)
Definition read (v : value) (k : string) : M value :=
  match get v k with
  | Some x => ret x
  | None => throw TypeError
  end.

(** What the handler sends: [res.status(c).json(body)]; [json()] sends no
    body. *)
Record http_response : Type := mkResponse {
  code : Z;
  payload : option value
}.

Definition res_set_status (c : Z) : M unit := modify (set_res_status c).

Definition res_json (body : option value) : M http_response :=
  c <- gets res_status ;; ret (mkResponse c body).

Record http_request : Type := mkRequest {
  body : object;   (* [req.body], the parsed JSON object *)
  user : oid       (* [req.user._id], set by the authentication middleware *)
}.

Definition when (c : bool) (m : M unit) : M unit := if c then m else ret tt.

(** ** Store and processor operations *)

Definition set_subscription_state (st ty : value) (d : Subscription)
  : Subscription :=
  mkSubscription (sub_id d) (userId d) (subscriptionId d) st (startDate d)
    (endDate d) (paymentStatus d) ty (customerId d) (priceId d).

Definition set_response_status_event (rs st ev : value) (d : PaymentLog)
  : PaymentLog :=
  mkPaymentLog (log_id d) (log_userId d) (request d) rs st ev.

Definition set_status_event (st ev : value) (d : PaymentLog) : PaymentLog :=
  mkPaymentLog (log_id d) (log_userId d) (request d) (response d) st ev.

Definition Subscription_findOne (filter : Subscription -> bool)
  : M (option Subscription) :=
  gets (fun w => findOne filter (subscriptions w)).

Definition Subscription_updateOne (filter : Subscription -> bool)
    (patch : Subscription -> Subscription) : M unit :=
  modify (fun w => set_subscriptions (updateOne filter patch (subscriptions w)) w).

Definition PaymentLog_updateOne (filter : PaymentLog -> bool)
    (patch : PaymentLog -> PaymentLog) : M unit :=
  modify (fun w => set_paymentLogs (updateOne filter patch (paymentLogs w)) w).

Definition User_findById (i : oid) : M (option oid) :=
  gets (fun w => find (fun u => (u =? i)%string) (users w)).

Definition stripe_products_list : M (list value) :=
  modify (fun w => set_stripe_calls (stripe_calls w ++ [ProductsList]) w) ;;
  gets stripe_products.

Definition stripe_subscriptions_update (id params : value) : M unit :=
  modify (fun w =>
    set_stripe_calls (stripe_calls w ++ [SubscriptionsUpdate id params]) w).

(** The filter [{userId, $or: [active, trialing], endDate: {$gte: now}}] of
    [createCheckoutSession]. *)
Definition holds_subscription (uid : oid) (now : Z) (d : Subscription) : bool :=
  value_eqb (userId d) (VStr uid)
  && (value_eqb (subscriptionStatus d) (VStr "active")
      || value_eqb (subscriptionStatus d) (VStr "trialing"))
  && date_gte (endDate d) now.

(** The filter of [cancelSubscription], which adds the subscription id. *)
Definition cancellable (store : value -> value -> bool) (uid : oid)
    (sid : value) (now : Z) (d : Subscription) : bool :=
  value_eqb (userId d) (VStr uid)
  && filter_match store (subscriptionId d) sid
  && (value_eqb (subscriptionStatus d) (VStr "active")
      || value_eqb (subscriptionStatus d) (VStr "trialing"))
  && date_gte (endDate d) now.

(** The filter [{subscriptionId: id, subscriptionStatus: "incomplete"}] of
    [webHook]. *)
Definition incomplete_with (store : value -> value -> bool) (sid : value)
    (d : Subscription) : bool :=
  filter_match store (subscriptionId d) sid
  && value_eqb (subscriptionStatus d) (VStr "incomplete").

(** ** The controller *)

Section Controller.

(** The query language of the store on filter values that are not strings
    (see [filter_match]). *)
Variable store_match : value -> value -> bool.

(** [changeUnixTimestampFormat] of [../common], which is not part of the
    controller. *)
Variable changeUnixTimestampFormat : value -> value.

(** The ObjectId the driver gives to the n-th created document. *)
Variable new_oid : nat -> oid.

(** ToString, as a template literal applies it. *)
Variable to_string : value -> string.

(** The url of the session the processor opens for the given parameters. *)
Variable session_url : value -> value.

Definition Subscription_create (doc : oid -> Subscription) : M Subscription :=
  fun w =>
    let d := doc (new_oid (oid_counter w)) in
    (Ok d, set_oid_counter (S (oid_counter w))
             (set_subscriptions (subscriptions w ++ [d]) w)).

Definition PaymentLog_create (doc : oid -> PaymentLog) : M PaymentLog :=
  fun w =>
    let d := doc (new_oid (oid_counter w)) in
    (Ok d, set_oid_counter (S (oid_counter w))
             (set_paymentLogs (paymentLogs w ++ [d]) w)).

Definition stripe_checkout_sessions_create (params : value) : M value :=
  modify (fun w =>
    set_stripe_calls (stripe_calls w ++ [CheckoutSessionsCreate params]) w) ;;
  ret (VObj [("url", session_url params)]).

Definition handleCreateSubscription (subData subscriptionType : value)
  : M Subscription :=
  metadata <- read subData "metadata" ;;
  uid <- read metadata "userId" ;;
  sid <- read subData "id" ;;
  st <- read subData "status" ;;
  created <- read subData "created" ;;
  period_end <- read subData "current_period_end" ;;
  customer <- read subData "customer" ;;
  metadata' <- read subData "metadata" ;;
  price <- read metadata' "priceId" ;;
  Subscription_create (fun i =>
    mkSubscription i uid sid st
      (changeUnixTimestampFormat created)
      (changeUnixTimestampFormat period_end)
      (VStr "complete") subscriptionType customer price).

Definition createCheckoutSession (req : http_request) : M http_response :=
  let params := body req in
  let type := if truthy (prop params "type") then prop params "type"
              else VStr EmptyString in
  let successUrl := if truthy (prop params "successUrl")
                    then prop params "successUrl" else VStr EmptyString in
  let cancelUrl := if truthy (prop params "cancelUrl")
                   then prop params "cancelUrl" else VStr EmptyString in
  when (negb (truthy successUrl) || negb (truthy cancelUrl))
    (res_set_status 400 ;;
     throw (Error "Please pass required all parameters.")) ;;
  when (truthy type && negb (is_str type "trial"))
    (res_set_status 400 ;; throw (Error "Please pass valid type")) ;;
  let _id := user req in
  found <- User_findById _id ;;
  when (match found with None => true | Some _ => false end)
    (res_set_status 401 ;; throw (Error "User not found.")) ;;
  now <- gets clock ;;
  activeSub <- Subscription_findOne (holds_subscription _id now) ;;
  when (match option_map sub_id activeSub with
        | Some _ => true
        | None => false
        end)
    (res_set_status 401 ;; throw (Error "Subscription already exist.")) ;;
  products <- stripe_products_list ;;
  match products with
  | first :: _ =>
      price <- read first "default_price" ;;
      let reqObj := VObj [("price", price); ("quantity", VNum 1)] in
      payment <- PaymentLog_create (fun i =>
        mkPaymentLog i (VStr _id) reqObj VUndef VUndef VUndef) ;;
      price' <- read first "default_price" ;;
      let metaDataObj :=
        VObj [("paymentLog", VStr (log_id payment)); ("userId", VStr _id);
              ("priceId", price')] in
      let subscription_data :=
        if is_str type "trial"
        then VObj [("metadata", metaDataObj);
                   ("trial_settings",
                    VObj [("end_behavior",
                           VObj [("missing_payment_method", VStr "cancel")])]);
                   ("trial_period_days", VNum 3)]
        else VObj [("metadata", metaDataObj)] in
      session <- stripe_checkout_sessions_create
        (VObj [("payment_method_types", VArr [VStr "card"]);
               ("line_items", VArr [reqObj]);
               ("mode", VStr "subscription");
               ("subscription_data", subscription_data);
               ("metadata", metaDataObj);
               ("success_url", VStr (to_string successUrl));
               ("cancel_url",
                VStr (to_string cancelUrl ++ "?id=" ++ log_id payment))]) ;;
      url <- read session "url" ;;
      res_set_status 200 ;;
      res_json (Some (VObj [("url", url)]))
  | [] =>
      res_set_status 401 ;; throw (Error "Plan not found.")
  end.

Definition webHook (req : http_request) : M http_response :=
  let params := body req in
  let type := prop params "type" in
  let data := prop params "data" in
  (* createObj *)
  object <- read data "object" ;;
  present <- (if truthy object then read object "status" else ret object) ;;
  status <- (if truthy present
             then o <- read data "object" ;; read o "status"
             else ret (VStr "NO-STATUS")) ;;
  (* get userId inside metaData object *)
  uid <- (if is_str type "invoice.payment_succeeded"
             || is_str type "invoice.updated"
             || is_str type "invoice.created"
          then o <- read data "object" ;;
               details <- read o "subscription_details" ;;
               read details "userId"
          else if is_str type "customer.subscription.created"
                  || is_str type "customer.subscription.updated"
                  || is_str type "checkout.session.completed"
                  || is_str type "payment_intent.succeeded"
                  || is_str type "payment_intent.created"
          then o <- read data "object" ;;
               metadata <- read o "metadata" ;;
               read metadata "userId"
          else ret VUndef) ;;
  (* add data in paymentLog table *)
  when (negb (is_str type "charge.succeeded")
        && negb (is_str type "payment_method.attached"))
    (PaymentLog_create (fun i =>
       mkPaymentLog i uid VUndef (VObj params) status type) ;;
     ret tt) ;;
  (* add data in subscription table when create subscription *)
  when (is_str type "customer.subscription.created")
    (subData <- read data "object" ;;
     st <- read subData "status" ;;
     handleCreateSubscription subData st ;;
     ret tt) ;;
  when (is_str type "customer.subscription.updated")
    (subData <- read data "object" ;;
     sid <- read subData "id" ;;
     sub <- Subscription_findOne (incomplete_with store_match sid) ;;
     match sub with
     | Some sub =>
         Subscription_updateOne
           (fun d => (sub_id d =? sub_id sub)%string)
           (set_subscription_state (VStr "active") (VStr "new"))
     | None =>
         cancel <- read subData "cancel_at_period_end" ;;
         when (negb (truthy cancel))
           (handleCreateSubscription subData (VStr "renewal") ;;
            o <- read data "object" ;;
            metadata <- read o "metadata" ;;
            paymentLog <- read metadata "paymentLog" ;;
            o' <- read data "object" ;;
            st <- read o' "status" ;;
            st' <- (if is_str st "active" then ret (VStr "success")
                    else o'' <- read data "object" ;; read o'' "status") ;;
            PaymentLog_updateOne
              (fun d => has_id store_match paymentLog (log_id d))
              (set_response_status_event (VObj params) st' type))
     end) ;;
  res_set_status 200 ;;
  res_json None.

Definition cancelPayment (req : http_request) : M http_response :=
  let params := body req in
  let paymentId := if truthy (prop params "paymentId")
                   then prop params "paymentId" else VStr EmptyString in
  when (negb (truthy paymentId))
    (res_set_status 400 ;;
     throw (Error "Please pass required all parameters.")) ;;
  PaymentLog_updateOne
    (fun d => has_id store_match paymentId (log_id d))
    (set_status_event (VStr "cancel") (VStr "cancel")) ;;
  res_set_status 200 ;;
  res_json (Some (VObj [("success", VBool true)])).

Definition cancelSubscription (req : http_request) : M http_response :=
  let params := body req in
  let subscriptionId := if truthy (prop params "subscriptionId")
                        then prop params "subscriptionId" else VStr EmptyString in
  when (negb (truthy subscriptionId))
    (res_set_status 400 ;;
     throw (Error "Please pass required all parameters.")) ;;
  now <- gets clock ;;
  sub <- Subscription_findOne (cancellable store_match (user req) subscriptionId now) ;;
  when (match sub with None => true | Some _ => false end)
    (res_set_status 400 ;; throw (Error "Subscription does not exist.")) ;;
  (* end subscription recurring cycle for cancel subscription *)
  stripe_subscriptions_update subscriptionId
    (VObj [("cancel_at_period_end", VBool true)]) ;;
  res_set_status 200 ;;
  res_json (Some (VObj [("success", VBool true)])).

End Controller.

(** ** A concrete instance

    A processor, a clock and a database small enough to run the handlers
    on. *)

Module Demo.

(** A store that knows the operators [$ne] and [$eq], and matches [null]
    against a missing field. *)
Definition query (stored q : value) : bool :=
  match q with
  | VObj [("$ne", VNull)] => negb (nullish stored)
  | VObj [("$ne", x)] => negb (value_eqb stored x)
  | VObj [("$eq", x)] => value_eqb stored x
  | VNull => nullish stored
  | _ => value_eqb stored q
  end.

Definition timestamp (v : value) : value :=
  match v with
  | VNum seconds => VDate (seconds * 1000)
  | _ => v
  end.

Fixpoint tally (n : nat) : string :=
  match n with
  | O => EmptyString
  | S k => "i" ++ tally k
  end.

Definition fresh_oid (n : nat) : oid := "oid-" ++ tally n.

Definition text (v : value) : string :=
  match v with
  | VStr s => s
  | _ => EmptyString
  end.

Definition url (_ : value) : value := VStr "https://pay.example/session".

(** A subscription of user [u1], as [handleCreateSubscription] stores it. *)
Definition sub (i : oid) (sid st : string) (ends : Z) : Subscription :=
  mkSubscription i (VStr "u1") (VStr sid) (VStr st) (VDate 1000) (VDate ends)
    (VStr "complete") (VStr st) (VStr "cus_1") (VStr "price_1").

(** The log of a checkout attempt of user [u1]. *)
Definition attempt (i : oid) : PaymentLog :=
  mkPaymentLog i (VStr "u1")
    (VObj [("price", VStr "price_1"); ("quantity", VNum 1)])
    VUndef VUndef VUndef.

Definition db (subs : list Subscription) (logs : list PaymentLog) : world :=
  mkWorld subs logs ["u1"; "u2"]
    [VObj [("id", VStr "prod_1"); ("default_price", VStr "price_1")]]
    [] 7 5000 200.

(** A subscription object of the processor. *)
Definition stripe_sub (sid st : string) (cancel : bool) : value :=
  VObj [("id", VStr sid); ("status", VStr st); ("created", VNum 1);
        ("current_period_end", VNum 9); ("customer", VStr "cus_1");
        ("cancel_at_period_end", VBool cancel);
        ("metadata", VObj [("paymentLog", VStr "log-a"); ("userId", VStr "u1");
                           ("priceId", VStr "price_1")])].

Definition stripe_event (type : string) (o : value) : http_request :=
  mkRequest [("id", VStr "evt_1"); ("type", VStr type);
             ("data", VObj [("object", o)])] EmptyString.

(** An invoice that no subscription produced. *)
Definition one_off_invoice : value :=
  VObj [("id", VStr "in_1"); ("status", VStr "draft");
        ("subscription_details", VNull)].

(** The processor reports that subscription [sub_1] is now active. *)
Definition update_event : http_request :=
  stripe_event "customer.subscription.updated" (stripe_sub "sub_1" "active" false).

(** The processor reports a new subscription, in its trial. *)
Definition create_event : http_request :=
  stripe_event "customer.subscription.created" (stripe_sub "sub_1" "trialing" false).

(** [sub_1] waits for its first payment. *)
Definition pending : Subscription := sub "s-b" "sub_1" "incomplete" 9000.

Definition pending_db : world :=
  db [sub "s-a" "sub_0" "canceled" 4000; pending] [attempt "log-a"].

(** [sub_1] has run for a period already. *)
Definition renewing_db : world :=
  db [sub "s-a" "sub_1" "active" 4000] [attempt "log-a"].

(** The same, with an older attempt of user [u2] logged before that of
    [u1]. *)
Definition other_attempt : PaymentLog :=
  mkPaymentLog "log-b" (VStr "u2")
    (VObj [("price", VStr "price_1"); ("quantity", VNum 1)])
    VUndef (VStr "open") (VStr "checkout.session.completed").

Definition two_logs_db : world :=
  db [sub "s-a" "sub_1" "active" 4000] [other_attempt; attempt "log-a"].

(** User [u1] holds an active subscription that ends after the clock. *)
Definition current : Subscription := sub "s-a" "sub_0" "active" 9000.

Definition subscribed_db : world := db [current] [attempt "log-a"].

Definition checkout (params : object) (u : oid) : http_request :=
  mkRequest params u.

Definition urls : object :=
  [("successUrl", VStr "https://desk.example/ok");
   ("cancelUrl", VStr "https://desk.example/back")].

(** The processor reports that [sub_1] will end with its period. *)
Definition cancel_event : http_request :=
  stripe_event "customer.subscription.updated" (stripe_sub "sub_1" "active" true).

(** A paid checkout. *)
Definition session_event : http_request :=
  stripe_event "checkout.session.completed"
    (VObj [("id", VStr "cs_1"); ("status", VStr "complete");
           ("metadata", VObj [("paymentLog", VStr "log-a"); ("userId", VStr "u1")])]).

(** A paid invoice of a subscription. *)
Definition invoice_event : http_request :=
  stripe_event "invoice.payment_succeeded"
    (VObj [("id", VStr "in_2"); ("status", VStr "paid");
           ("subscription_details",
            VObj [("metadata", VObj [("userId", VStr "u1")])])]).

(** An event type the handler has no branch for. *)
Definition customer_event : http_request :=
  stripe_event "customer.created" (VObj [("id", VStr "cus_1")]).

(** A processor without products. *)
Definition no_plan_db : world :=
  mkWorld [] [] ["u1"; "u2"] [] [] 7 5000 200.

(** Nobody has subscribed yet. *)
Definition open_db : world := db [] [attempt "log-a"].

(** A checkout request of user [u2], who has no subscription. *)
Definition plain_checkout : http_request := checkout urls "u2".


(** The request the client sends from the cancel page of that checkout. *)
Definition cancel_attempt (i : oid) (u : oid) : http_request :=
  mkRequest [("paymentId", VStr i)] u.

Definition cancel_sub (sid : string) (u : oid) : http_request :=
  mkRequest [("subscriptionId", VStr sid)] u.

End Demo.

(** ** Vocabulary of the statements *)

(** [v.k] where the read is known not to throw. *)
Definition field (v : value) (k : string) : value :=
  match get v k with
  | Some x => x
  | None => VUndef
  end.

Definition event_type (req : http_request) : value := prop (body req) "type".

Definition event_data (req : http_request) : value := prop (body req) "data".

(** [data.object] of the envelope. *)
Definition event_object (req : http_request) : value :=
  field (event_data req) "object".

(** The envelope carries a subscription object of the processor: [data],
    [data.object] and [data.object.metadata] are there. *)
Definition carries_subscription (req : http_request) : bool :=
  negb (nullish (event_data req))
  && negb (nullish (event_object req))
  && negb (nullish (field (event_object req) "metadata")).

(** The status [webHook] logs for an event. *)
Definition logged_status (o : value) : value :=
  if truthy (field o "status") then field o "status" else VStr "NO-STATUS".

(** The status [webHook] writes back to the log of the checkout attempt. *)
Definition normalized_status (o : value) : value :=
  if is_str (field o "status") "active" then VStr "success"
  else field o "status".

(** The three inputs of [createCheckoutSession], after defaulting. *)
Definition param (req : http_request) (k : string) : value :=
  if truthy (prop (body req) k) then prop (body req) k else VStr EmptyString.

(** The request fails the validation of [createCheckoutSession]. *)
Definition invalid_checkout (req : http_request) : bool :=
  negb (truthy (prop (body req) "successUrl"))
  || negb (truthy (prop (body req) "cancelUrl"))
  || (truthy (prop (body req) "type")
      && negb (is_str (prop (body req) "type") "trial")).

(** The ids of a collection. *)
Definition sub_ids (w : world) : list oid := map sub_id (subscriptions w).

(** The record [webHook] adds to the payment logs for an event, with the
    user id it derived. *)
Definition event_log (req : http_request) (uid : value) (i : oid) : PaymentLog :=
  mkPaymentLog i uid VUndef (VObj (body req))
    (logged_status (event_object req)) (event_type req).

(** The world after a document was added to the payment logs. *)
Definition with_log (d : PaymentLog) (w : world) : world :=
  set_oid_counter (S (oid_counter w))
    (set_paymentLogs (paymentLogs w ++ [d]) w).

(** The world after a document was added to the subscriptions. *)
Definition with_subscription (d : Subscription) (w : world) : world :=
  set_oid_counter (S (oid_counter w))
    (set_subscriptions (subscriptions w ++ [d]) w).

(** The patch of the renewal branch of [webHook]. *)
Definition renewal_patch (req : http_request) : PaymentLog -> PaymentLog :=
  set_response_status_event (VObj (body req))
    (normalized_status (event_object req)) (event_type req).

(** The filter [{_id: data.object.metadata.paymentLog}]. *)
Definition referenced_log (store : value -> value -> bool) (req : http_request)
    (d : PaymentLog) : bool :=
  has_id store (field (field (event_object req) "metadata") "paymentLog") (log_id d).

(** A subscription that user [u] can cancel under the id [s] at the time
    [now]: it is the user's, has that id, is active or in its trial, and
    ends at a date not before [now]. *)
Definition current_of (u : oid) (s : string) (now : Z) (d : Subscription) : Prop :=
  userId d = VStr u
  /\ subscriptionId d = VStr s
  /\ (subscriptionStatus d = VStr "active"
      \/ subscriptionStatus d = VStr "trialing")
  /\ exists ms, endDate d = VDate ms /\ now <= ms.

(** The body [{success: true}]. *)
Definition success_body : value := VObj [("success", VBool true)].

(** The request [stripe.subscriptions.update(id, {cancel_at_period_end: true})]. *)
Definition cancel_at_period_end (sid : value) : stripe_call :=
  SubscriptionsUpdate sid (VObj [("cancel_at_period_end", VBool true)]).

(** The ids of the payment logs. *)
Definition log_ids (w : world) : list oid := map log_id (paymentLogs w).

(** A handler keeps [P] however it ends, by a response or by a throw. *)
Definition preserves {A : Type} (P : world -> Prop) (m : M A) : Prop :=
  forall w, P w -> P (snd (m w)).

(** The ids of the driver: none twice in a collection, and none of those
    still to come in use. *)
Definition ids_ok (new_oid : nat -> oid) (w : world) : Prop :=
  NoDup (sub_ids w)
  /\ NoDup (log_ids w)
  /\ forall n, (oid_counter w <= n)%nat ->
       ~ In (new_oid n) (sub_ids w) /\ ~ In (new_oid n) (log_ids w).

(** The event types whose user id [webHook] reads from
    [data.object.subscription_details]. *)
Definition invoice_family (type : value) : bool :=
  is_str type "invoice.payment_succeeded"
  || is_str type "invoice.updated"
  || is_str type "invoice.created".

(** The event types whose user id [webHook] reads from
    [data.object.metadata]. *)
Definition metadata_family (type : value) : bool :=
  is_str type "customer.subscription.created"
  || is_str type "customer.subscription.updated"
  || is_str type "checkout.session.completed"
  || is_str type "payment_intent.succeeded"
  || is_str type "payment_intent.created".

(** The envelope has every part [webHook] reads a property of. *)
Definition envelope_readable (req : http_request) : bool :=
  negb (nullish (event_data req))
  && (if invoice_family (event_type req)
      then negb (nullish (event_object req))
           && negb (nullish (field (event_object req) "subscription_details"))
      else if metadata_family (event_type req)
      then negb (nullish (event_object req))
           && negb (nullish (field (event_object req) "metadata"))
      else true).

Local Open Scope list_scope.

(** ** Lists and stores *)

Lemma find_first {A : Type} (p : A -> bool) (l : list A) (x : A) :
  find p l = Some x ->
  exists l1 l2, l = l1 ++ x :: l2 /\ p x = true /\ Forall (fun y => p y = false) l1.
Proof.
  induction l as [|a l IH]; simpl; [discriminate|].
  destruct (p a) eqn:Ha.
  - intros [= ->]. exists [], l. auto.
  - intros H. destruct (IH H) as (l1 & l2 & -> & Hx & Hl1).
    exists (a :: l1), l2. auto.
Qed.

Lemma find_exists {A : Type} (p : A -> bool) (l : list A) (d : A) :
  In d l -> p d = true -> exists x, find p l = Some x.
Proof.
  induction l as [|a l IH]; simpl; [tauto|].
  intros [->|Hin] Hd.
  - rewrite Hd. eauto.
  - destruct (p a); eauto.
Qed.

Lemma find_none_iff {A : Type} (p : A -> bool) (l : list A) :
  find p l = None <-> (forall d, In d l -> p d = false).
Proof.
  split.
  - apply find_none.
  - induction l as [|a l IH]; simpl; [reflexivity|].
    intros H. rewrite (H a (or_introl eq_refl)). apply IH. auto.
Qed.

Lemma updateOne_first {A : Type} (p : A -> bool) (f : A -> A) (l1 l2 : list A) (x : A) :
  Forall (fun y => p y = false) l1 -> p x = true ->
  updateOne p f (l1 ++ x :: l2) = l1 ++ f x :: l2.
Proof.
  induction 1 as [|a l1 Ha _ IH]; simpl; intros Hx.
  - now rewrite Hx.
  - rewrite Ha, IH by assumption. reflexivity.
Qed.

Lemma updateOne_none {A : Type} (p : A -> bool) (f : A -> A) (l : list A) :
  (forall d, In d l -> p d = false) -> updateOne p f l = l.
Proof.
  induction l as [|a l IH]; simpl; [reflexivity|].
  intros H. rewrite (H a (or_introl eq_refl)), IH; auto.
Qed.

Lemma updateOne_length {A : Type} (p : A -> bool) (f : A -> A) (l : list A) :
  length (updateOne p f l) = length l.
Proof.
  induction l as [|a l IH]; simpl; [reflexivity|].
  destruct (p a); simpl; congruence.
Qed.

(** In a collection with unique ids, the filter [{_id: d._id}] reaches [d]
    itself. *)
Lemma updateOne_by_id (f : Subscription -> Subscription) (l1 l2 : list Subscription)
    (d : Subscription) :
  NoDup (map sub_id (l1 ++ d :: l2)) ->
  updateOne (fun x => (sub_id x =? sub_id d)%string) f (l1 ++ d :: l2)
  = l1 ++ f d :: l2.
Proof.
  intros Hnd. apply updateOne_first.
  - rewrite map_app in Hnd. simpl in Hnd.
    apply NoDup_remove_2 in Hnd.
    apply Forall_forall. intros y Hy.
    apply String.eqb_neq. intros E. apply Hnd.
    apply in_or_app. left. rewrite <- E. now apply in_map.
  - apply String.eqb_refl.
Qed.

(** The two writes the handlers make to the subscriptions keep the ids
    unique: the transition leaves every id in place, and a created document
    gets an id of its own. *)
Lemma updateOne_keeps_ids (p : Subscription -> bool) (st ty : value)
    (l : list Subscription) :
  map sub_id (updateOne p (set_subscription_state st ty) l) = map sub_id l.
Proof.
  induction l as [|a l IH]; simpl; [reflexivity|].
  destruct (p a); simpl; [reflexivity | now rewrite IH].
Qed.

Lemma with_subscription_keeps_ids (d : Subscription) (w : world) :
  NoDup (sub_ids w) -> ~ In (sub_id d) (sub_ids w) ->
  NoDup (sub_ids (with_subscription d w)).
Proof.
  unfold sub_ids, with_subscription. simpl. intros Hnd Hnew.
  rewrite map_app. simpl. apply NoDup_rev in Hnd.
  rewrite <- (rev_involutive (map sub_id (subscriptions w) ++ [sub_id d])).
  apply NoDup_rev. rewrite rev_app_distr. simpl.
  constructor; [|exact Hnd].
  intros Hin. apply Hnew. now apply in_rev.
Qed.

(** ** Reads that cannot throw *)

Lemma bind_read {A : Type} (v : value) (k : string) (f : value -> M A) (w : world) :
  nullish v = false -> bind (read v k) f w = f (field v k) w.
Proof.
  unfold read, field, get. destruct v; simpl; intros H; try discriminate H; reflexivity.
Qed.

Lemma bind_read_null {A : Type} (v : value) (k : string) (f : value -> M A) (w : world) :
  nullish v = true -> bind (read v k) f w = (Throw TypeError, w).
Proof.
  unfold read, get. destruct v; simpl; intros H; try discriminate H; reflexivity.
Qed.

Lemma carries_subscription_elim (req : http_request) :
  carries_subscription req = true ->
  nullish (event_data req) = false
  /\ nullish (event_object req) = false
  /\ nullish (field (event_object req) "metadata") = false.
Proof.
  unfold carries_subscription. intros H.
  apply andb_prop in H as [H H3]. apply andb_prop in H as [H1 H2].
  now rewrite negb_true_iff in H1, H2, H3.
Qed.

(** ** The monad *)

Lemma bind_assoc {A B C : Type} (m : M A) (f : A -> M B) (k : B -> M C) (w : world) :
  bind (bind m f) k w = bind m (fun x => bind (f x) k) w.
Proof. unfold bind. destruct (m w) as [[a|e] w']; reflexivity. Qed.

Lemma bind_ret {A B : Type} (a : A) (k : A -> M B) (w : world) :
  bind (ret a) k w = k a w.
Proof. reflexivity. Qed.

Lemma bind_gets {A B : Type} (f : world -> A) (k : A -> M B) (w : world) :
  bind (gets f) k w = k (f w) w.
Proof. reflexivity. Qed.

Lemma bind_modify {B : Type} (f : world -> world) (k : unit -> M B) (w : world) :
  bind (modify f) k w = k tt (f w).
Proof. reflexivity. Qed.

Lemma bind_throw {A B : Type} (e : exn) (k : A -> M B) (w : world) :
  bind (throw e) k w = (Throw e, w).
Proof. reflexivity. Qed.

Lemma bind_PaymentLog_create {B : Type} (new_oid : nat -> oid)
    (doc : oid -> PaymentLog) (k : PaymentLog -> M B) (w : world) :
  bind (PaymentLog_create new_oid doc) k w
  = k (doc (new_oid (oid_counter w))) (with_log (doc (new_oid (oid_counter w))) w).
Proof. reflexivity. Qed.

Lemma bind_Subscription_create {B : Type} (new_oid : nat -> oid)
    (doc : oid -> Subscription) (k : Subscription -> M B) (w : world) :
  bind (Subscription_create new_oid doc) k w
  = k (doc (new_oid (oid_counter w)))
      (with_subscription (doc (new_oid (oid_counter w))) w).
Proof. reflexivity. Qed.

(** One step of a handler at a time. *)
Ltac run :=
  repeat first
    [ rewrite bind_assoc
    | rewrite bind_read by assumption
    | rewrite bind_ret
    | rewrite bind_gets
    | rewrite bind_modify
    | rewrite bind_throw
    | rewrite bind_PaymentLog_create
    | rewrite bind_Subscription_create ].

Ltac literals :=
  cbn [is_str String.eqb Ascii.eqb Bool.eqb orb andb negb when].

Lemma falsy_field (v : value) (k : string) :
  truthy v = false -> field v k = VUndef.
Proof.
  unfold field, get. destruct v; simpl; intros H; try discriminate H; reflexivity.
Qed.

Lemma truthy_not_nullish (v : value) : truthy v = true -> nullish v = false.
Proof. destruct v; simpl; intros H; try discriminate H; reflexivity. Qed.

(** The first statement of [webHook]: the status of [createObj]. *)
Lemma webHook_status {A : Type} (data : value) (k : value -> M A) (w : world) :
  nullish data = false ->
  (object <- read data "object" ;;
   present <- (if truthy object then read object "status" else ret object) ;;
   status <- (if truthy present
              then o <- read data "object" ;; read o "status"
              else ret (VStr "NO-STATUS")) ;;
   k status) w
  = k (logged_status (field data "object")) w.
Proof.
  intros Hd. rewrite bind_read by assumption.
  unfold logged_status.
  destruct (truthy (field data "object")) eqn:Ho.
  - pose proof (truthy_not_nullish _ Ho) as Hn.
    rewrite bind_read by assumption.
    destruct (truthy (field (field data "object") "status")) eqn:Hs.
    + rewrite bind_assoc, !bind_read by assumption. reflexivity.
    + reflexivity.
  - rewrite bind_ret, Ho, (falsy_field _ "status" Ho). reflexivity.
Qed.

(** ** Filters on strings *)

Lemma value_eqb_str (v : value) (s : string) :
  value_eqb v (VStr s) = true -> v = VStr s.
Proof.
  destruct v; simpl; intros H; try discriminate H.
  now apply String.eqb_eq in H as ->.
Qed.

Lemma date_gte_inv (v : value) (now : Z) :
  date_gte v now = true -> exists ms, v = VDate ms /\ now <= ms.
Proof.
  destruct v; simpl; intros H; try discriminate H.
  exists ms. split; [reflexivity | now apply Z.leb_le].
Qed.

Lemma value_eqb_str_refl (s : string) : value_eqb (VStr s) (VStr s) = true.
Proof. apply String.eqb_refl. Qed.

Section Properties.

Variable store_match : value -> value -> bool.
Variable changeUnixTimestampFormat : value -> value.
Variable new_oid : nat -> oid.
Variable to_string : value -> string.
Variable session_url : value -> value.

(** ** [webHook] on subscription events *)

(** An update that finds an incomplete record. *)
Lemma webHook_run_incomplete (req : http_request) (w : world) (sub : Subscription) :
  event_type req = VStr "customer.subscription.updated" ->
  carries_subscription req = true ->
  findOne (incomplete_with store_match (field (event_object req) "id")) (subscriptions w)
  = Some sub ->
  webHook store_match changeUnixTimestampFormat new_oid req w
  = (Ok (mkResponse 200 None),
     set_res_status 200
       (set_subscriptions
          (updateOne (fun d => (sub_id d =? sub_id sub)%string)
             (set_subscription_state (VStr "active") (VStr "new"))
             (subscriptions w))
          (with_log
             (event_log req (field (field (event_object req) "metadata") "userId")
                (new_oid (oid_counter w))) w))).
Proof.
  intros Ht Hc Hf.
  apply carries_subscription_elim in Hc as (Hd & Ho & Hm).
  unfold event_log. unfold event_object, event_data, event_type in *.
  unfold webHook. rewrite Ht. cbn beta zeta.
  rewrite webHook_status by assumption. literals.
  unfold Subscription_findOne, Subscription_updateOne, res_set_status, res_json.
  run. cbn [subscriptions with_log set_oid_counter set_paymentLogs].
  rewrite Hf. run. reflexivity.
Qed.

(** An update that finds none and is not a cancellation. *)
Lemma webHook_run_renewal (req : http_request) (w : world) :
  event_type req = VStr "customer.subscription.updated" ->
  carries_subscription req = true ->
  findOne (incomplete_with store_match (field (event_object req) "id")) (subscriptions w)
  = None ->
  truthy (field (event_object req) "cancel_at_period_end") = false ->
  let o := event_object req in
  let log := event_log req (field (field o "metadata") "userId")
               (new_oid (oid_counter w)) in
  let d := mkSubscription (new_oid (S (oid_counter w)))
             (field (field o "metadata") "userId") (field o "id")
             (field o "status")
             (changeUnixTimestampFormat (field o "created"))
             (changeUnixTimestampFormat (field o "current_period_end"))
             (VStr "complete") (VStr "renewal") (field o "customer")
             (field (field o "metadata") "priceId") in
  webHook store_match changeUnixTimestampFormat new_oid req w
  = (Ok (mkResponse 200 None),
     set_res_status 200
       (set_paymentLogs
          (updateOne (referenced_log store_match req) (renewal_patch req)
             (paymentLogs w ++ [log]))
          (with_subscription d (with_log log w)))).
Proof.
  intros Ht Hc Hf Hcancel. cbv zeta.
  apply carries_subscription_elim in Hc as (Hd & Ho & Hm).
  unfold referenced_log, renewal_patch, normalized_status, event_log.
  unfold event_object, event_data, event_type in *.
  unfold webHook. rewrite Ht. cbn beta zeta.
  rewrite webHook_status by assumption. literals.
  unfold Subscription_findOne, res_set_status, res_json.
  run. cbn [subscriptions with_log set_oid_counter set_paymentLogs].
  rewrite Hf. run. rewrite Hcancel. literals.
  unfold handleCreateSubscription, PaymentLog_updateOne. run.
  destruct (is_str (field (field (prop (body req) "data") "object") "status") "active");
    run; reflexivity.
Qed.

(** A creation. *)
Lemma webHook_run_created (req : http_request) (w : world) :
  event_type req = VStr "customer.subscription.created" ->
  carries_subscription req = true ->
  let o := event_object req in
  let log := event_log req (field (field o "metadata") "userId")
               (new_oid (oid_counter w)) in
  let d := mkSubscription (new_oid (S (oid_counter w)))
             (field (field o "metadata") "userId") (field o "id")
             (field o "status")
             (changeUnixTimestampFormat (field o "created"))
             (changeUnixTimestampFormat (field o "current_period_end"))
             (VStr "complete") (field o "status") (field o "customer")
             (field (field o "metadata") "priceId") in
  webHook store_match changeUnixTimestampFormat new_oid req w
  = (Ok (mkResponse 200 None),
     set_res_status 200 (with_subscription d (with_log log w))).
Proof.
  intros Ht Hc. cbv zeta.
  apply carries_subscription_elim in Hc as (Hd & Ho & Hm).
  unfold event_log. unfold event_object, event_data, event_type in *.
  unfold webHook. rewrite Ht. cbn beta zeta.
  rewrite webHook_status by assumption. literals.
  unfold handleCreateSubscription, res_set_status, res_json.
  run. reflexivity.
Qed.


(** The record an update reaches, and the world it leaves. *)
Lemma webHook_incomplete_shape (req : http_request) (w : world) (d0 : Subscription) :
  event_type req = VStr "customer.subscription.updated" ->
  carries_subscription req = true ->
  NoDup (sub_ids w) ->
  In d0 (subscriptions w) ->
  incomplete_with store_match (field (event_object req) "id") d0 = true ->
  exists before d after,
    subscriptions w = before ++ d :: after
    /\ incomplete_with store_match (field (event_object req) "id") d = true
    /\ Forall (fun y => incomplete_with store_match (field (event_object req) "id") y = false)
         before
    /\ webHook store_match changeUnixTimestampFormat new_oid req w
       = (Ok (mkResponse 200 None),
          set_res_status 200
            (set_subscriptions
               (before ++ set_subscription_state (VStr "active") (VStr "new") d
                  :: after)
               (with_log
                  (event_log req
                     (field (field (event_object req) "metadata") "userId")
                     (new_oid (oid_counter w))) w))).
Proof.
  intros Ht Hc Hnd Hin Hd0.
  destruct (find_exists _ _ _ Hin Hd0) as [d Hf].
  destruct (find_first _ _ _ Hf) as (before & after & Hsplit & Hd & Hbefore).
  exists before, d, after. repeat split; try assumption.
  rewrite (webHook_run_incomplete req w d Ht Hc Hf).
  unfold sub_ids in Hnd. rewrite Hsplit in *.
  now rewrite updateOne_by_id.
Qed.

(** C1. A [customer.subscription.updated] event whose subscription id
    matches an existing record with status [incomplete] makes the handler
    turn that record (the first such record of the collection) to status
    [active] and type [new]; the collection keeps its length, so no record
    is created. *)
Theorem webHook_activates_incomplete (req : http_request) (w : world)
    (d0 : Subscription) :
  event_type req = VStr "customer.subscription.updated" ->
  carries_subscription req = true ->
  NoDup (sub_ids w) ->
  In d0 (subscriptions w) ->
  incomplete_with store_match (field (event_object req) "id") d0 = true ->
  exists w' before d d' after,
    webHook store_match changeUnixTimestampFormat new_oid req w
    = (Ok (mkResponse 200 None), w')
    /\ subscriptions w = before ++ d :: after
    /\ incomplete_with store_match (field (event_object req) "id") d = true
    /\ Forall (fun y => incomplete_with store_match (field (event_object req) "id") y = false)
         before
    /\ subscriptions w' = before ++ d' :: after
    /\ sub_id d' = sub_id d
    /\ subscriptionStatus d' = VStr "active"
    /\ subscriptionType d' = VStr "new"
    /\ length (subscriptions w') = length (subscriptions w).
Proof.
  intros Ht Hc Hnd Hin Hd0.
  destruct (webHook_incomplete_shape req w d0 Ht Hc Hnd Hin Hd0)
    as (before & d & after & Hsplit & Hd & Hbefore & Hrun).
  eexists _, before, d, _, after.
  split; [exact Hrun|]. cbn [subscriptions set_res_status set_subscriptions].
  repeat split; try assumption.
  rewrite Hsplit, !length_app. reflexivity.
Qed.

(** C9. In that transition the record keeps its id, [userId],
    [subscriptionId], [startDate], [endDate], [paymentStatus], [customerId]
    and [priceId], and the records before and after it in the collection
    are the ones that were there. *)
Theorem webHook_transition_frame (req : http_request) (w : world)
    (d0 : Subscription) :
  event_type req = VStr "customer.subscription.updated" ->
  carries_subscription req = true ->
  NoDup (sub_ids w) ->
  In d0 (subscriptions w) ->
  incomplete_with store_match (field (event_object req) "id") d0 = true ->
  exists before d d' after,
    subscriptions w = before ++ d :: after
    /\ subscriptions (snd (webHook store_match changeUnixTimestampFormat new_oid req w))
       = before ++ d' :: after
    /\ incomplete_with store_match (field (event_object req) "id") d = true
    /\ sub_id d' = sub_id d
    /\ userId d' = userId d
    /\ subscriptionId d' = subscriptionId d
    /\ startDate d' = startDate d
    /\ endDate d' = endDate d
    /\ paymentStatus d' = paymentStatus d
    /\ customerId d' = customerId d
    /\ priceId d' = priceId d.
Proof.
  intros Ht Hc Hnd Hin Hd0.
  destruct (webHook_incomplete_shape req w d0 Ht Hc Hnd Hin Hd0)
    as (before & d & after & Hsplit & Hd & _ & Hrun).
  exists before, d, (set_subscription_state (VStr "active") (VStr "new") d), after.
  rewrite Hrun. repeat split; assumption.
Qed.

(** A string filter on [_id] is equality of ids. *)
Lemma has_id_string (i j : oid) :
  has_id store_match (VStr i) j = (j =? i)%string.
Proof. reflexivity. Qed.

Lemma no_earlier_id (i : oid) (before : list PaymentLog) :
  (forall y, In y before -> log_id y <> i) ->
  Forall (fun y => has_id store_match (VStr i) (log_id y) = false) before.
Proof.
  intros H. apply Forall_forall. intros y Hy.
  rewrite has_id_string. apply String.eqb_neq. auto.
Qed.

(** C2. A [customer.subscription.updated] event that does not ask for a
    cancellation at the end of the period and matches no incomplete record
    makes the handler add exactly one subscription record, of type
    [renewal], and patch the payment log whose id is
    [data.object.metadata.paymentLog] with status [success] when the
    processor status is [active] and with the processor status otherwise.
    The patched log is given by value: when the reference is the string
    [i], the first log whose id is [i] gets the envelope, that status and
    the event type, keeps its id, user and request, and every other log
    stays as it was; the only other change is the log of the event itself,
    appended at the end. *)
Theorem webHook_renewal (req : http_request) (w : world) :
  event_type req = VStr "customer.subscription.updated" ->
  carries_subscription req = true ->
  truthy (field (event_object req) "cancel_at_period_end") = false ->
  (forall d, In d (subscriptions w) ->
             incomplete_with store_match (field (event_object req) "id") d = false) ->
  let o := event_object req in
  let log :=
    mkPaymentLog (new_oid (oid_counter w)) (field (field o "metadata") "userId")
      VUndef (VObj (body req))
      (if truthy (field o "status") then field o "status" else VStr "NO-STATUS")
      (event_type req) in
  exists w' d,
    webHook store_match changeUnixTimestampFormat new_oid req w
    = (Ok (mkResponse 200 None), w')
    /\ subscriptions w' = subscriptions w ++ [d]
    /\ subscriptionType d = VStr "renewal"
    /\ subscriptionId d = field o "id"
    /\ paymentLogs w'
       = updateOne (referenced_log store_match req) (renewal_patch req)
           (paymentLogs w ++ [log])
    /\ (forall i before p after,
          field (field o "metadata") "paymentLog" = VStr i ->
          paymentLogs w = before ++ p :: after ->
          log_id p = i ->
          (forall y, In y before -> log_id y <> i) ->
          paymentLogs w'
          = before
            ++ mkPaymentLog (log_id p) (log_userId p) (request p)
                 (VObj (body req))
                 (if is_str (field o "status") "active" then VStr "success"
                  else field o "status")
                 (event_type req)
               :: after ++ [log]).
Proof.
  intros Ht Hc Hcancel Hnone. cbv zeta.
  apply find_none_iff in Hnone.
  pose proof (webHook_run_renewal req w Ht Hc Hnone Hcancel) as Hrun.
  cbv zeta in Hrun.
  eexists _, _. split; [exact Hrun|].
  cbn [subscriptions paymentLogs set_res_status set_paymentLogs
       with_subscription with_log set_oid_counter set_subscriptions].
  repeat split.
  intros i before p after Hi Hsplit Hp Hbefore.
  rewrite Hsplit, <- app_assoc. cbn [app].
  rewrite updateOne_first; [reflexivity | |].
  - unfold referenced_log. rewrite Hi. now apply no_earlier_id.
  - unfold referenced_log. rewrite Hi, has_id_string, Hp. apply String.eqb_refl.
Qed.

(** C3. A [customer.subscription.created] event makes the handler add a
    subscription record whose status and type are both the status of the
    processor's subscription, whose dates are [changeUnixTimestampFormat]
    of its [created] and [current_period_end], and whose payment status is
    [complete]. *)
Theorem webHook_created (req : http_request) (w : world) :
  event_type req = VStr "customer.subscription.created" ->
  carries_subscription req = true ->
  exists w' d,
    webHook store_match changeUnixTimestampFormat new_oid req w
    = (Ok (mkResponse 200 None), w')
    /\ subscriptions w' = subscriptions w ++ [d]
    /\ subscriptionId d = field (event_object req) "id"
    /\ subscriptionStatus d = field (event_object req) "status"
    /\ subscriptionType d = field (event_object req) "status"
    /\ startDate d = changeUnixTimestampFormat (field (event_object req) "created")
    /\ endDate d
       = changeUnixTimestampFormat (field (event_object req) "current_period_end")
    /\ paymentStatus d = VStr "complete".
Proof.
  intros Ht Hc.
  pose proof (webHook_run_created req w Ht Hc) as Hrun. cbv zeta in Hrun.
  eexists _, _. split; [exact Hrun|]. repeat split.
Qed.


(** ** [webHook] on an invoice without subscription details *)

(** C4. The event [invoice.created] for an invoice whose
    [subscription_details] is [null] is neither [charge.succeeded] nor
    [payment_method.attached], yet the handler throws while it derives the
    user id and leaves the payment logs as they were. *)
Theorem webHook_one_off_invoice_not_logged (w : world) :
  let req := Demo.stripe_event "invoice.created" Demo.one_off_invoice in
  is_str (event_type req) "charge.succeeded" = false
  /\ is_str (event_type req) "payment_method.attached" = false
  /\ paymentLogs (snd (webHook store_match changeUnixTimestampFormat new_oid req w))
     = paymentLogs w.
Proof. repeat split. Qed.

(** C5. On that event the handler ends in a TypeError and never reaches
    [res.status(200).json()]. *)
Theorem webHook_one_off_invoice_throws (w : world) :
  webHook store_match changeUnixTimestampFormat new_oid
    (Demo.stripe_event "invoice.created" Demo.one_off_invoice) w
  = (Throw TypeError, w).
Proof. reflexivity. Qed.

(** ** [createCheckoutSession] *)

Lemma truthy_default (v : value) :
  truthy (if truthy v then v else VStr EmptyString) = truthy v.
Proof. destruct (truthy v) eqn:E; [exact E | reflexivity]. Qed.

Lemma find_user (i : oid) (l : list oid) :
  In i l -> find (fun u => (u =? i)%string) l = Some i.
Proof.
  induction l as [|a l IH]; simpl; [tauto|].
  destruct (String.eqb_spec a i) as [->|Hne]; [reflexivity|].
  intros [E|Hin]; [contradiction | auto].
Qed.

Lemma find_user_none (i : oid) (l : list oid) :
  ~ In i l -> find (fun u => (u =? i)%string) l = None.
Proof.
  intros Hn. apply find_none_iff. intros u Hu.
  apply String.eqb_neq. intros ->. contradiction.
Qed.

Lemma createCheckoutSession_run_invalid (req : http_request) (w : world) :
  invalid_checkout req = true ->
  exists msg,
    createCheckoutSession new_oid to_string session_url req w
    = (Throw (Error msg), set_res_status 400 w).
Proof.
  unfold invalid_checkout, createCheckoutSession. intros H.
  rewrite !truthy_default.
  destruct (truthy (prop (body req) "successUrl")) eqn:Hs;
    [destruct (truthy (prop (body req) "cancelUrl")) eqn:Hc|];
    cbn [negb orb when] in *; unfold res_set_status.
  - destruct (truthy (prop (body req) "type")) eqn:Hty; [|discriminate H].
    cbn [andb] in H |- *. rewrite H. cbn [when]. run. eauto.
  - run. eauto.
  - run. eauto.
Qed.

Lemma createCheckoutSession_run_invalid_message (req : http_request) (w : world) :
  invalid_checkout req = true ->
  exists msg,
    createCheckoutSession new_oid to_string session_url req w
    = (Throw (Error msg), set_res_status 400 w)
    /\ (msg = "Please pass required all parameters."%string
        \/ msg = "Please pass valid type"%string).
Proof.
  unfold invalid_checkout, createCheckoutSession. intros H.
  rewrite !truthy_default.
  destruct (truthy (prop (body req) "successUrl")) eqn:Hs;
    [destruct (truthy (prop (body req) "cancelUrl")) eqn:Hc|];
    cbn [negb orb when] in *; unfold res_set_status.
  - destruct (truthy (prop (body req) "type")) eqn:Hty; [|discriminate H].
    cbn [andb] in H |- *. rewrite H. cbn [when]. run. eauto.
  - run. eauto.
  - run. eauto.
Qed.

(** C6. A checkout request without [successUrl] or [cancelUrl], or with a
    [type] other than [trial], is rejected with status 400 by the first
    statements of the handler: the collections are as they were and
    nothing was sent to the processor. *)
Theorem createCheckoutSession_rejects_invalid (req : http_request) (w : world) :
  invalid_checkout req = true ->
  exists msg w',
    createCheckoutSession new_oid to_string session_url req w
    = (Throw (Error msg), w')
    /\ res_status w' = 400
    /\ subscriptions w' = subscriptions w
    /\ paymentLogs w' = paymentLogs w
    /\ stripe_calls w' = stripe_calls w
    /\ oid_counter w' = oid_counter w.
Proof.
  intros H. destruct (createCheckoutSession_run_invalid req w H) as [msg Hrun].
  exists msg, (set_res_status 400 w). repeat split. exact Hrun.
Qed.

Lemma createCheckoutSession_run_valid (req : http_request) (w : world) :
  invalid_checkout req = false ->
  createCheckoutSession new_oid to_string session_url req w
  = (found <- User_findById (user req) ;;
     when (match found with None => true | Some _ => false end)
       (res_set_status 401 ;; throw (Error "User not found.")) ;;
     now <- gets clock ;;
     activeSub <- Subscription_findOne (holds_subscription (user req) now) ;;
     when (match option_map sub_id activeSub with
           | Some _ => true
           | None => false
           end)
       (res_set_status 401 ;; throw (Error "Subscription already exist.")) ;;
     products <- stripe_products_list ;;
     match products with
     | first :: _ =>
         price <- read first "default_price" ;;
         let reqObj := VObj [("price", price); ("quantity", VNum 1)] in
         payment <- PaymentLog_create new_oid (fun i =>
           mkPaymentLog i (VStr (user req)) reqObj VUndef VUndef VUndef) ;;
         price' <- read first "default_price" ;;
         let metaDataObj :=
           VObj [("paymentLog", VStr (log_id payment));
                 ("userId", VStr (user req)); ("priceId", price')] in
         let subscription_data :=
           if is_str (param req "type") "trial"
           then VObj [("metadata", metaDataObj);
                      ("trial_settings",
                       VObj [("end_behavior",
                              VObj [("missing_payment_method", VStr "cancel")])]);
                      ("trial_period_days", VNum 3)]
           else VObj [("metadata", metaDataObj)] in
         session <- stripe_checkout_sessions_create session_url
           (VObj [("payment_method_types", VArr [VStr "card"]);
                  ("line_items", VArr [reqObj]);
                  ("mode", VStr "subscription");
                  ("subscription_data", subscription_data);
                  ("metadata", metaDataObj);
                  ("success_url", VStr (to_string (param req "successUrl")));
                  ("cancel_url",
                   VStr (to_string (param req "cancelUrl") ++ "?id="
                         ++ log_id payment)%string)]) ;;
         url <- read session "url" ;;
         res_set_status 200 ;;
         res_json (Some (VObj [("url", url)]))
     | [] =>
         res_set_status 401 ;; throw (Error "Plan not found.")
     end) w.
Proof.
  unfold invalid_checkout, createCheckoutSession. intros H.
  apply orb_false_elim in H as [H Hty]. apply orb_false_elim in H as [Hs Hc].
  rewrite !truthy_default, Hs, Hc. cbn [orb when]. rewrite bind_ret.
  replace (truthy (prop (body req) "type")
           && negb (is_str (if truthy (prop (body req) "type")
                            then prop (body req) "type" else VStr EmptyString) "trial"))
    with false.
  - cbn [when]. rewrite bind_ret. reflexivity.
  - destruct (truthy (prop (body req) "type")) eqn:E; [|reflexivity].
    symmetry. exact Hty.
Qed.

(** C7, as the code has it. A user who holds a subscription with status
    [active] or [trialing] and an end date not yet passed gets no checkout
    session: the handler throws, adds no payment log and sends nothing to
    the processor.  The error is the 401 [Subscription already exist.] when
    the request passes validation and the user is found; a request that
    fails validation gets the 400 of the validation, and a valid request of
    a user the [User] collection does not hold the 401 [User not found.]. *)
Theorem createCheckoutSession_conflict (req : http_request) (w : world)
    (d : Subscription) :
  In d (subscriptions w) ->
  holds_subscription (user req) (clock w) d = true ->
  exists msg w',
    createCheckoutSession new_oid to_string session_url req w
    = (Throw (Error msg), w')
    /\ subscriptions w' = subscriptions w
    /\ paymentLogs w' = paymentLogs w
    /\ stripe_calls w' = stripe_calls w
    /\ (invalid_checkout req = false -> In (user req) (users w) ->
        msg = "Subscription already exist."%string /\ res_status w' = 401)
    /\ (invalid_checkout req = true ->
        (msg = "Please pass required all parameters."%string
         \/ msg = "Please pass valid type"%string)
        /\ res_status w' = 400)
    /\ (invalid_checkout req = false -> ~ In (user req) (users w) ->
        msg = "User not found."%string /\ res_status w' = 401).
Proof.
  intros Hin Hd.
  destruct (invalid_checkout req) eqn:Hv.
  - destruct (createCheckoutSession_run_invalid_message req w Hv)
      as (msg & Hrun & Hmsg).
    exists msg, (set_res_status 400 w).
    repeat split; try discriminate; [exact Hrun | exact Hmsg].
  - rewrite (createCheckoutSession_run_valid req w Hv).
    unfold User_findById, Subscription_findOne, res_set_status. run.
    destruct (find_exists _ _ _ Hin Hd) as [x Hx].
    destruct (in_dec string_dec (user req) (users w)) as [Hu|Hu].
    + rewrite (find_user _ _ Hu). cbn [when]. run. unfold findOne. rewrite Hx.
      cbn [option_map when]. run.
      exists "Subscription already exist."%string, (set_res_status 401 w).
      repeat split; try discriminate; contradiction.
    + rewrite (find_user_none _ _ Hu). cbn [when]. run.
      exists "User not found."%string, (set_res_status 401 w).
      repeat split; try discriminate; contradiction.
Qed.

(** ** The cancellation handlers *)

(** For a string id the filter of [cancelSubscription] says what
    [current_of] says. *)
Lemma cancellable_string (u : oid) (s : string) (now : Z) (d : Subscription) :
  cancellable store_match u (VStr s) now d = true <-> current_of u s now d.
Proof.
  unfold cancellable, current_of. cbn [filter_match]. split.
  - intros H. apply andb_prop in H as [H Hdate]. apply andb_prop in H as [H Hst].
    apply andb_prop in H as [Hu Hid].
    apply value_eqb_str in Hu. apply date_gte_inv in Hdate.
    repeat split; try assumption.
    + destruct (subscriptionId d); cbn [is_str] in Hid; try discriminate Hid.
      now apply String.eqb_eq in Hid as ->.
    + apply orb_prop in Hst as [Hst|Hst]; apply value_eqb_str in Hst; auto.
  - intros (Hu & Hid & Hst & ms & Hend & Hle).
    rewrite Hu, Hid, Hend. cbn [is_str date_gte].
    rewrite value_eqb_str_refl, String.eqb_refl. apply Z.leb_le in Hle.
    rewrite Hle. destruct Hst as [-> | ->]; reflexivity.
Qed.

(** [cancelSubscription] when the store finds nothing, and when it finds a
    record. *)
Lemma cancelSubscription_run_miss (req : http_request) (w : world) :
  truthy (prop (body req) "subscriptionId") = true ->
  (forall d, In d (subscriptions w) ->
             cancellable store_match (user req)
               (prop (body req) "subscriptionId") (clock w) d = false) ->
  cancelSubscription store_match req w
  = (Throw (Error "Subscription does not exist."), set_res_status 400 w).
Proof.
  intros Ht Hnone. unfold cancelSubscription.
  rewrite Ht. cbv iota. rewrite Ht. cbn [negb when].
  unfold Subscription_findOne, stripe_subscriptions_update, res_set_status, res_json.
  run. apply find_none_iff in Hnone. unfold findOne. rewrite Hnone.
  cbn [when]. run. reflexivity.
Qed.

Lemma cancelSubscription_run_hit (req : http_request) (w : world)
    (d : Subscription) :
  truthy (prop (body req) "subscriptionId") = true ->
  In d (subscriptions w) ->
  cancellable store_match (user req) (prop (body req) "subscriptionId")
    (clock w) d = true ->
  cancelSubscription store_match req w
  = (Ok (mkResponse 200 (Some success_body)),
     set_res_status 200
       (set_stripe_calls
          (stripe_calls w
           ++ [cancel_at_period_end (prop (body req) "subscriptionId")]) w)).
Proof.
  intros Ht Hin Hd. unfold cancelSubscription.
  rewrite Ht. cbv iota. rewrite Ht. cbn [negb when].
  unfold Subscription_findOne, stripe_subscriptions_update, res_set_status, res_json.
  run. destruct (find_exists _ _ _ Hin Hd) as [x Hx].
  unfold findOne. rewrite Hx. cbn [when]. run. reflexivity.
Qed.

(** C8. A [cancelSubscription] request with a subscription id: when no
    record of the caller with that id, status [active] or [trialing] and
    an end date not yet passed exists, the handler throws
    [Subscription does not exist.] and the processor is not called; when
    one exists, the handler asks the processor to cancel at the end of the
    period, answers [{success: true}] and changes neither collection.
    Stated on the filter the handler gives the store, whatever the id is,
    and by value for an id that is a string. *)
Theorem cancelSubscription_spec (req : http_request) (w : world) :
  truthy (prop (body req) "subscriptionId") = true ->
  let sid := prop (body req) "subscriptionId" in
  ((forall d, In d (subscriptions w) ->
              cancellable store_match (user req) sid (clock w) d = false) ->
   cancelSubscription store_match req w
   = (Throw (Error "Subscription does not exist."), set_res_status 400 w)
   /\ stripe_calls (snd (cancelSubscription store_match req w)) = stripe_calls w)
  /\
  ((exists d, In d (subscriptions w)
              /\ cancellable store_match (user req) sid (clock w) d = true) ->
   fst (cancelSubscription store_match req w)
   = Ok (mkResponse 200 (Some success_body))
   /\ stripe_calls (snd (cancelSubscription store_match req w))
      = stripe_calls w ++ [cancel_at_period_end sid]
   /\ subscriptions (snd (cancelSubscription store_match req w)) = subscriptions w
   /\ paymentLogs (snd (cancelSubscription store_match req w)) = paymentLogs w)
  /\
  (forall s, sid = VStr s ->
     (forall d, In d (subscriptions w) ->
                ~ current_of (user req) s (clock w) d) ->
     cancelSubscription store_match req w
     = (Throw (Error "Subscription does not exist."), set_res_status 400 w))
  /\
  (forall s d, sid = VStr s ->
     In d (subscriptions w) ->
     current_of (user req) s (clock w) d ->
     cancelSubscription store_match req w
     = (Ok (mkResponse 200 (Some success_body)),
        set_res_status 200
          (set_stripe_calls
             (stripe_calls w ++ [cancel_at_period_end (VStr s)]) w))).
Proof.
  intros Ht sid. subst sid. split; [|split; [|split]].
  - intros Hnone. rewrite (cancelSubscription_run_miss req w Ht Hnone).
    split; reflexivity.
  - intros (d & Hin & Hd). rewrite (cancelSubscription_run_hit req w d Ht Hin Hd).
    repeat split.
  - intros s Hs Hnone. apply (cancelSubscription_run_miss req w Ht).
    intros d Hin. rewrite Hs.
    destruct (cancellable store_match (user req) (VStr s) (clock w) d) eqn:E;
      [|reflexivity].
    apply cancellable_string in E. now apply Hnone in E.
  - intros s d Hs Hin Hd. rewrite <- Hs.
    apply (cancelSubscription_run_hit req w d Ht Hin).
    rewrite Hs. now apply cancellable_string.
Qed.

(** C10. [cancelPayment] does not look at the caller: two users who send
    the same body get the same answer and leave the same world, and with a
    [paymentId] the record with that id gets status and event [cancel]
    whoever owns it.  By value: for the string id [i], the first log whose
    id is [i], whatever its user, keeps its id, user, request and response
    and gets status and event [cancel]; every other log stays as it
    was. *)
Theorem cancelPayment_ignores_caller (b : object) (u1 u2 : oid) (w : world) :
  truthy (prop b "paymentId") = true ->
  cancelPayment store_match (mkRequest b u1) w
  = cancelPayment store_match (mkRequest b u2) w
  /\ fst (cancelPayment store_match (mkRequest b u1) w)
     = Ok (mkResponse 200 (Some success_body))
  /\ paymentLogs (snd (cancelPayment store_match (mkRequest b u1) w))
     = updateOne (fun d => has_id store_match (prop b "paymentId") (log_id d))
         (set_status_event (VStr "cancel") (VStr "cancel")) (paymentLogs w)
  /\ subscriptions (snd (cancelPayment store_match (mkRequest b u1) w))
     = subscriptions w
  /\ (forall i before p after,
        prop b "paymentId" = VStr i ->
        paymentLogs w = before ++ p :: after ->
        log_id p = i ->
        (forall y, In y before -> log_id y <> i) ->
        paymentLogs (snd (cancelPayment store_match (mkRequest b u2) w))
        = before
          ++ mkPaymentLog (log_id p) (log_userId p) (request p) (response p)
               (VStr "cancel") (VStr "cancel")
             :: after).
Proof.
  intros Ht. split; [reflexivity|].
  unfold cancelPayment. cbn [body]. rewrite Ht. cbv iota. rewrite Ht.
  cbn [negb when].
  unfold PaymentLog_updateOne, res_set_status, res_json. run.
  split; [reflexivity|]. split; [reflexivity|]. split; [reflexivity|].
  intros i before p after Hi Hsplit Hp Hbefore.
  cbn [snd ret paymentLogs set_res_status set_paymentLogs].
  rewrite Hsplit, Hi.
  rewrite updateOne_first; [reflexivity | now apply no_earlier_id |].
  rewrite has_id_string, Hp. apply String.eqb_refl.
Qed.

(** ** What [webHook] does whenever it returns *)

Lemma bind_ok_inv {A B : Type} (m : M A) (k : A -> M B) (w w' : world) (b : B) :
  bind m k w = (Ok b, w') ->
  exists a w1, m w = (Ok a, w1) /\ k a w1 = (Ok b, w').
Proof.
  unfold bind. destruct (m w) as [[a|e] w1]; [eauto | discriminate].
Qed.

(** X25. Whenever [webHook] returns, the response it sends is the empty
    200, whatever the event was and whatever it wrote. *)
Lemma webHook_returns_200 (req : http_request) (w w' : world) (r : http_response) :
  webHook store_match changeUnixTimestampFormat new_oid req w = (Ok r, w') ->
  r = mkResponse 200 None.
Proof.
  unfold webHook. intros H.
  do 7 (apply bind_ok_inv in H as (? & ? & _ & H)).
  now injection H as <- _.
Qed.

(** X26. No payment log is created for [charge.succeeded] and
    [payment_method.attached], however the handler ends. *)
Lemma webHook_skips_charges (req : http_request) (w : world) :
  is_str (event_type req) "charge.succeeded"
  || is_str (event_type req) "payment_method.attached" = true ->
  paymentLogs (snd (webHook store_match changeUnixTimestampFormat new_oid req w))
  = paymentLogs w.
Proof.
  unfold event_type, webHook. intros H.
  assert (Ht : prop (body req) "type" = VStr "charge.succeeded"
               \/ prop (body req) "type" = VStr "payment_method.attached").
  { destruct (prop (body req) "type"); try discriminate H.
    cbn [is_str] in H. apply orb_prop in H as [H|H];
      apply String.eqb_eq in H; subst; auto. }
  destruct (nullish (prop (body req) "data")) eqn:Hd.
  - rewrite bind_read_null by assumption. reflexivity.
  - destruct Ht as [-> | ->]; rewrite webHook_status by assumption; literals;
      unfold res_set_status, res_json; run; reflexivity.
Qed.


End Properties.

(** ** The statements at work on the concrete instance *)

Ltac distinct := repeat constructor; simpl; intuition discriminate.

Lemma webHook_activates_incomplete_witness :
  event_type Demo.update_event = VStr "customer.subscription.updated"
  /\ carries_subscription Demo.update_event = true
  /\ NoDup (sub_ids Demo.pending_db)
  /\ In Demo.pending (subscriptions Demo.pending_db)
  /\ incomplete_with Demo.query (field (event_object Demo.update_event) "id") Demo.pending
     = true
  /\ exists w' before d d' after,
       webHook Demo.query Demo.timestamp Demo.fresh_oid Demo.update_event Demo.pending_db
       = (Ok (mkResponse 200 None), w')
       /\ subscriptions Demo.pending_db = before ++ d :: after
       /\ incomplete_with Demo.query (field (event_object Demo.update_event) "id") d = true
       /\ Forall (fun y => incomplete_with
                             Demo.query (field (event_object Demo.update_event) "id") y
                           = false) before
       /\ subscriptions w' = before ++ d' :: after
       /\ sub_id d' = sub_id d
       /\ subscriptionStatus d' = VStr "active"
       /\ subscriptionType d' = VStr "new"
       /\ length (subscriptions w') = length (subscriptions Demo.pending_db).
Proof.
  split; [reflexivity|]. split; [reflexivity|]. split; [distinct|].
  split; [simpl; auto|]. split; [reflexivity|].
  apply (webHook_activates_incomplete Demo.query Demo.timestamp Demo.fresh_oid
           Demo.update_event Demo.pending_db Demo.pending);
    [reflexivity | reflexivity | distinct | simpl; auto | reflexivity].
Defined.

Lemma webHook_transition_frame_witness :
  event_type Demo.update_event = VStr "customer.subscription.updated"
  /\ carries_subscription Demo.update_event = true
  /\ NoDup (sub_ids Demo.pending_db)
  /\ In Demo.pending (subscriptions Demo.pending_db)
  /\ incomplete_with Demo.query (field (event_object Demo.update_event) "id") Demo.pending
     = true
  /\ exists before d d' after,
       subscriptions Demo.pending_db = before ++ d :: after
       /\ subscriptions
            (snd (webHook Demo.query Demo.timestamp Demo.fresh_oid Demo.update_event
                    Demo.pending_db))
          = before ++ d' :: after
       /\ incomplete_with Demo.query (field (event_object Demo.update_event) "id") d = true
       /\ sub_id d' = sub_id d
       /\ userId d' = userId d
       /\ subscriptionId d' = subscriptionId d
       /\ startDate d' = startDate d
       /\ endDate d' = endDate d
       /\ paymentStatus d' = paymentStatus d
       /\ customerId d' = customerId d
       /\ priceId d' = priceId d.
Proof.
  split; [reflexivity|]. split; [reflexivity|]. split; [distinct|].
  split; [simpl; auto|]. split; [reflexivity|].
  apply (webHook_transition_frame Demo.query Demo.timestamp Demo.fresh_oid
           Demo.update_event Demo.pending_db Demo.pending);
    [reflexivity | reflexivity | distinct | simpl; auto | reflexivity].
Defined.

Lemma webHook_renewal_witness :
  event_type Demo.update_event = VStr "customer.subscription.updated"
  /\ carries_subscription Demo.update_event = true
  /\ truthy (field (event_object Demo.update_event) "cancel_at_period_end") = false
  /\ (forall d, In d (subscriptions Demo.two_logs_db) ->
                incomplete_with Demo.query
                  (field (event_object Demo.update_event) "id") d
                = false)
  /\ exists w' d,
       webHook Demo.query Demo.timestamp Demo.fresh_oid Demo.update_event
         Demo.two_logs_db
       = (Ok (mkResponse 200 None), w')
       /\ subscriptions w' = [Demo.sub "s-a" "sub_1" "active" 4000; d]
       /\ subscriptionType d = VStr "renewal"
       /\ subscriptionId d = VStr "sub_1"
       /\ paymentLogs w'
          = [Demo.other_attempt;
             mkPaymentLog "log-a" (VStr "u1")
               (VObj [("price", VStr "price_1"); ("quantity", VNum 1)])
               (VObj (body Demo.update_event)) (VStr "success")
               (VStr "customer.subscription.updated");
             mkPaymentLog (Demo.fresh_oid 7) (VStr "u1") VUndef
               (VObj (body Demo.update_event)) (VStr "active")
               (VStr "customer.subscription.updated")].
Proof.
  assert (Hnone : forall d, In d (subscriptions Demo.two_logs_db) ->
            incomplete_with Demo.query
              (field (event_object Demo.update_event) "id") d = false).
  { intros d [<-|[]]. reflexivity. }
  split; [reflexivity|]. split; [reflexivity|]. split; [reflexivity|].
  split; [exact Hnone|].
  destruct (webHook_renewal Demo.query Demo.timestamp Demo.fresh_oid
              Demo.update_event Demo.two_logs_db eq_refl eq_refl eq_refl Hnone)
    as (w' & d & Hrun & Hsubs & Hty & Hid & _ & Hlog).
  exists w', d. split; [exact Hrun|]. split; [exact Hsubs|].
  split; [exact Hty|]. split; [exact Hid|].
  apply (Hlog "log-a"%string [Demo.other_attempt] (Demo.attempt "log-a") []
           eq_refl eq_refl eq_refl).
  intros y [<-|[]]. discriminate.
Defined.

Lemma webHook_created_witness :
  event_type Demo.create_event = VStr "customer.subscription.created"
  /\ carries_subscription Demo.create_event = true
  /\ exists w' d,
       webHook Demo.query Demo.timestamp Demo.fresh_oid Demo.create_event Demo.subscribed_db
       = (Ok (mkResponse 200 None), w')
       /\ subscriptions w' = subscriptions Demo.subscribed_db ++ [d]
       /\ subscriptionId d = VStr "sub_1"
       /\ subscriptionStatus d = VStr "trialing"
       /\ subscriptionType d = VStr "trialing"
       /\ startDate d = VDate 1000
       /\ endDate d = VDate 9000
       /\ paymentStatus d = VStr "complete".
Proof.
  split; [reflexivity|]. split; [reflexivity|].
  apply (webHook_created Demo.query Demo.timestamp Demo.fresh_oid Demo.create_event
           Demo.subscribed_db); reflexivity.
Defined.

Lemma createCheckoutSession_rejects_invalid_witness :
  invalid_checkout (Demo.checkout [("successUrl", VStr "https://desk.example/ok")] "u1")
  = true
  /\ exists msg w',
       createCheckoutSession Demo.fresh_oid Demo.text Demo.url
         (Demo.checkout [("successUrl", VStr "https://desk.example/ok")] "u1")
         Demo.subscribed_db
       = (Throw (Error msg), w')
       /\ res_status w' = 400
       /\ subscriptions w' = subscriptions Demo.subscribed_db
       /\ paymentLogs w' = paymentLogs Demo.subscribed_db
       /\ stripe_calls w' = stripe_calls Demo.subscribed_db
       /\ oid_counter w' = oid_counter Demo.subscribed_db.
Proof.
  split; [reflexivity|].
  apply (createCheckoutSession_rejects_invalid Demo.fresh_oid Demo.text Demo.url).
  reflexivity.
Defined.

Lemma createCheckoutSession_conflict_witness :
  In Demo.current (subscriptions Demo.subscribed_db)
  /\ holds_subscription "u1" (clock Demo.subscribed_db) Demo.current = true
  /\ (exists msg w',
        createCheckoutSession Demo.fresh_oid Demo.text Demo.url
          (Demo.checkout Demo.urls "u1") Demo.subscribed_db
        = (Throw (Error msg), w')
        /\ subscriptions w' = subscriptions Demo.subscribed_db
        /\ paymentLogs w' = paymentLogs Demo.subscribed_db
        /\ stripe_calls w' = stripe_calls Demo.subscribed_db
        /\ msg = "Subscription already exist."%string
        /\ res_status w' = 401)
  /\ (exists msg w',
        createCheckoutSession Demo.fresh_oid Demo.text Demo.url
          (Demo.checkout [] "u1") Demo.subscribed_db
        = (Throw (Error msg), w')
        /\ paymentLogs w' = paymentLogs Demo.subscribed_db
        /\ stripe_calls w' = stripe_calls Demo.subscribed_db
        /\ (msg = "Please pass required all parameters."%string
            \/ msg = "Please pass valid type"%string)
        /\ res_status w' = 400).
Proof.
  assert (Hin : In Demo.current (subscriptions Demo.subscribed_db))
    by (simpl; auto).
  split; [exact Hin|]. split; [reflexivity|]. split.
  - destruct (createCheckoutSession_conflict Demo.fresh_oid Demo.text Demo.url
                (Demo.checkout Demo.urls "u1") Demo.subscribed_db Demo.current
                Hin eq_refl)
      as (msg & w' & Hrun & Hs & Hl & Hc & Hconflict & _ & _).
    destruct (Hconflict eq_refl (or_introl eq_refl)) as [Hmsg Hst].
    exists msg, w'. repeat split; assumption.
  - destruct (createCheckoutSession_conflict Demo.fresh_oid Demo.text Demo.url
                (Demo.checkout [] "u1") Demo.subscribed_db Demo.current
                Hin eq_refl)
      as (msg & w' & Hrun & Hs & Hl & Hc & _ & Hinvalid & _).
    destruct (Hinvalid eq_refl) as [Hmsg Hst].
    exists msg, w'. repeat split; assumption.
Defined.

(** C7 as the spec words it fails: the same user, with a body that lacks
    the two urls, is turned away by the validation with a 400, not by the
    conflict check with a 401. *)
Lemma createCheckoutSession_conflict_counterexample :
  In Demo.current (subscriptions Demo.subscribed_db)
  /\ holds_subscription "u1" (clock Demo.subscribed_db) Demo.current = true
  /\ In "u1"%string (users Demo.subscribed_db)
  /\ createCheckoutSession Demo.fresh_oid Demo.text Demo.url
       (Demo.checkout [] "u1") Demo.subscribed_db
     = (Throw (Error "Please pass required all parameters."),
        set_res_status 400 Demo.subscribed_db)
  /\ ~ (exists w',
          createCheckoutSession Demo.fresh_oid Demo.text Demo.url
            (Demo.checkout [] "u1") Demo.subscribed_db
          = (Throw (Error "Subscription already exist."), w')
          /\ res_status w' = 401).
Proof.
  split; [simpl; auto|]. split; [reflexivity|]. split; [simpl; auto|].
  split; [reflexivity|].
  intros (w' & H & _). discriminate H.
Qed.

Lemma cancelSubscription_spec_witness :
  truthy (prop [("subscriptionId", VStr "sub_0")] "subscriptionId") = true
  /\ current_of "u1" "sub_0" (clock Demo.subscribed_db) Demo.current
  /\ (forall d, In d (subscriptions Demo.subscribed_db) ->
                ~ current_of "u2" "sub_0" (clock Demo.subscribed_db) d)
  /\ cancelSubscription Demo.query (Demo.cancel_sub "sub_0" "u2")
       Demo.subscribed_db
     = (Throw (Error "Subscription does not exist."),
        set_res_status 400 Demo.subscribed_db)
  /\ cancelSubscription Demo.query (Demo.cancel_sub "sub_0" "u1")
       Demo.subscribed_db
     = (Ok (mkResponse 200 (Some success_body)),
        set_res_status 200
          (set_stripe_calls [cancel_at_period_end (VStr "sub_0")]
             Demo.subscribed_db))
  /\ stripe_calls
       (snd (cancelSubscription Demo.query
               (mkRequest [("subscriptionId", VObj [("$ne", VNull)])] "u1")
               Demo.subscribed_db))
     = [cancel_at_period_end (VObj [("$ne", VNull)])].
Proof.
  assert (Hyes : current_of "u1" "sub_0" (clock Demo.subscribed_db) Demo.current).
  { repeat split; [now left|]. exists 9000. split; [reflexivity | simpl; lia]. }
  assert (Hnone : forall d, In d (subscriptions Demo.subscribed_db) ->
            ~ current_of "u2" "sub_0" (clock Demo.subscribed_db) d).
  { intros d [<-|[]] (Hu & _). discriminate Hu. }
  assert (Hany : exists d, In d (subscriptions Demo.subscribed_db)
            /\ cancellable Demo.query "u1" (VObj [("$ne", VNull)])
                 (clock Demo.subscribed_db) d = true).
  { exists Demo.current. split; [simpl; auto | reflexivity]. }
  split; [reflexivity|]. split; [exact Hyes|]. split; [exact Hnone|].
  split; [|split].
  - destruct (cancelSubscription_spec Demo.query (Demo.cancel_sub "sub_0" "u2")
                Demo.subscribed_db eq_refl) as (_ & _ & Hmiss & _).
    exact (Hmiss "sub_0"%string eq_refl Hnone).
  - destruct (cancelSubscription_spec Demo.query (Demo.cancel_sub "sub_0" "u1")
                Demo.subscribed_db eq_refl) as (_ & _ & _ & Hhit).
    exact (Hhit "sub_0"%string Demo.current eq_refl (or_introl eq_refl) Hyes).
  - destruct (cancelSubscription_spec Demo.query
                (mkRequest [("subscriptionId", VObj [("$ne", VNull)])] "u1")
                Demo.subscribed_db eq_refl) as (_ & Hop & _).
    destruct (Hop Hany) as (_ & Hcalls & _). exact Hcalls.
Defined.

Lemma cancelPayment_ignores_caller_witness :
  truthy (prop [("paymentId", VStr "log-a")] "paymentId") = true
  /\ cancelPayment Demo.query (Demo.cancel_attempt "log-a" "u1") Demo.two_logs_db
     = cancelPayment Demo.query (Demo.cancel_attempt "log-a" "u2") Demo.two_logs_db
  /\ log_userId (Demo.attempt "log-a") = VStr "u1"
  /\ paymentLogs
       (snd (cancelPayment Demo.query (Demo.cancel_attempt "log-a" "u2")
               Demo.two_logs_db))
     = [Demo.other_attempt;
        mkPaymentLog "log-a" (VStr "u1")
          (VObj [("price", VStr "price_1"); ("quantity", VNum 1)])
          VUndef (VStr "cancel") (VStr "cancel")].
Proof.
  split; [reflexivity|].
  destruct (cancelPayment_ignores_caller Demo.query [("paymentId", VStr "log-a")]
              "u1" "u2" Demo.two_logs_db eq_refl)
    as (Hsame & _ & _ & _ & Hvalue).
  split; [exact Hsame|]. split; [reflexivity|].
  apply (Hvalue "log-a"%string [Demo.other_attempt] (Demo.attempt "log-a") []
           eq_refl eq_refl eq_refl).
  intros y [<-|[]]. discriminate.
Defined.

(** * The rest of the controller *)

(** ** Handlers as sequences of steps *)

Lemma preserves_ret {A : Type} (P : world -> Prop) (a : A) : preserves P (ret a).
Proof. intros w H. exact H. Qed.

Lemma preserves_throw {A : Type} (P : world -> Prop) (e : exn) :
  preserves P (@throw A e).
Proof. intros w H. exact H. Qed.

Lemma preserves_gets {A : Type} (P : world -> Prop) (f : world -> A) :
  preserves P (gets f).
Proof. intros w H. exact H. Qed.

Lemma preserves_read (P : world -> Prop) (v : value) (k : string) :
  preserves P (read v k).
Proof. intros w H. unfold read. destruct (get v k); exact H. Qed.

Lemma preserves_modify (P : world -> Prop) (f : world -> world) :
  (forall w, P w -> P (f w)) -> preserves P (modify f).
Proof. intros Hf w H. apply Hf, H. Qed.

Lemma preserves_bind {A B : Type} (P : world -> Prop) (m : M A) (k : A -> M B) :
  preserves P m -> (forall a, preserves P (k a)) -> preserves P (bind m k).
Proof.
  intros Hm Hk w H. unfold bind. specialize (Hm w H).
  destruct (m w) as [[a|e] w1]; simpl in *; [apply Hk, Hm | exact Hm].
Qed.

Lemma preserves_when (P : world -> Prop) (c : bool) (m : M unit) :
  preserves P m -> preserves P (when c m).
Proof. intros Hm. destruct c; [exact Hm | apply preserves_ret]. Qed.

(** The steps every handler is made of; what is left is the writes. *)
Ltac steps :=
  repeat first
    [ apply preserves_ret
    | apply preserves_throw
    | apply preserves_gets
    | apply preserves_read
    | apply preserves_when
    | apply preserves_bind; [|intro]
    | match goal with
      | |- preserves _ (if ?c then _ else _) => destruct c
      | |- preserves _ (match ?x with Some _ => _ | None => _ end) => destruct x
      | |- preserves _ (match ?x with nil => _ | cons _ _ => _ end) => destruct x
      end ].

(** ** Event types *)

(** An event type is one of the ten the handler names, or none of them. *)
Lemma event_kind (v : value) :
  (v = VStr "invoice.payment_succeeded" \/ v = VStr "invoice.updated"
   \/ v = VStr "invoice.created")
  \/ (v = VStr "customer.subscription.created"
      \/ v = VStr "customer.subscription.updated")
  \/ (v = VStr "checkout.session.completed" \/ v = VStr "payment_intent.succeeded"
      \/ v = VStr "payment_intent.created")
  \/ (v = VStr "charge.succeeded" \/ v = VStr "payment_method.attached")
  \/ (invoice_family v = false /\ metadata_family v = false
      /\ is_str v "charge.succeeded" = false
      /\ is_str v "payment_method.attached" = false).
Proof.
  destruct v as [| | | |s| | |];
    try (right; right; right; right; repeat split; reflexivity).
  unfold invoice_family, metadata_family, is_str.
  repeat match goal with
         | |- context [(s =? ?lit)%string] =>
             destruct (String.eqb_spec s lit) as [->|_]; [tauto|]
         end.
  right; right; right; right. repeat split.
Qed.

Lemma invoice_family_inv (v : value) :
  invoice_family v = true ->
  v = VStr "invoice.payment_succeeded" \/ v = VStr "invoice.updated"
  \/ v = VStr "invoice.created".
Proof.
  intros H.
  destruct (event_kind v) as [K|[[->| ->]|[[->|[->| ->]]|[[->| ->]|(E & _)]]]];
    try discriminate H; [exact K | congruence].
Qed.

Lemma metadata_family_inv (v : value) :
  metadata_family v = true ->
  v = VStr "customer.subscription.created"
  \/ v = VStr "customer.subscription.updated"
  \/ v = VStr "checkout.session.completed"
  \/ v = VStr "payment_intent.succeeded"
  \/ v = VStr "payment_intent.created".
Proof.
  intros H.
  destruct (event_kind v) as [[->|[->| ->]]|[K|[K|[[->| ->]|(_ & E & _)]]]];
    try discriminate H; [tauto | tauto | congruence].
Qed.

Ltac run_at H :=
  repeat first
    [ rewrite bind_assoc in H
    | rewrite bind_read in H by assumption
    | rewrite bind_ret in H
    | rewrite bind_gets in H
    | rewrite bind_modify in H
    | rewrite bind_throw in H
    | rewrite bind_PaymentLog_create in H
    | rewrite bind_Subscription_create in H ].

Section Coverage.

Variable store_match : value -> value -> bool.
Variable changeUnixTimestampFormat : value -> value.
Variable new_oid : nat -> oid.
Variable to_string : value -> string.
Variable session_url : value -> value.

(** ** [webHook], branch by branch *)

(** The envelope has no [data]. *)
Lemma webHook_run_no_data (req : http_request) (w : world) :
  nullish (event_data req) = true ->
  webHook store_match changeUnixTimestampFormat new_oid req w = (Throw TypeError, w).
Proof.
  unfold event_data, webHook. intros Hd. now rewrite bind_read_null.
Qed.

(** An invoice event. *)
Lemma webHook_run_invoice (req : http_request) (w : world) :
  invoice_family (event_type req) = true ->
  nullish (event_data req) = false ->
  webHook store_match changeUnixTimestampFormat new_oid req w
  = if nullish (event_object req)
       || nullish (field (event_object req) "subscription_details")
    then (Throw TypeError, w)
    else (Ok (mkResponse 200 None),
          set_res_status 200
            (with_log
               (event_log req
                  (field (field (event_object req) "subscription_details") "userId")
                  (new_oid (oid_counter w))) w)).
Proof.
  intros Hf Hd. apply invoice_family_inv in Hf.
  unfold event_log. unfold event_object, event_data, event_type in *.
  unfold webHook.
  destruct (nullish (field (prop (body req) "data") "object")) eqn:Ho;
    [|destruct (nullish (field (field (prop (body req) "data") "object")
                           "subscription_details")) eqn:Hs];
    cbn [orb];
    destruct Hf as [Ht|[Ht|Ht]]; rewrite Ht; cbn beta zeta;
    rewrite webHook_status by assumption; literals;
    unfold res_set_status, res_json; run;
    try (rewrite bind_read_null by assumption); reflexivity.
Qed.

(** A session or payment-intent event. *)
Lemma webHook_run_session (req : http_request) (w : world) :
  event_type req = VStr "checkout.session.completed"
  \/ event_type req = VStr "payment_intent.succeeded"
  \/ event_type req = VStr "payment_intent.created" ->
  nullish (event_data req) = false ->
  webHook store_match changeUnixTimestampFormat new_oid req w
  = if nullish (event_object req)
       || nullish (field (event_object req) "metadata")
    then (Throw TypeError, w)
    else (Ok (mkResponse 200 None),
          set_res_status 200
            (with_log
               (event_log req
                  (field (field (event_object req) "metadata") "userId")
                  (new_oid (oid_counter w))) w)).
Proof.
  intros Hf Hd.
  unfold event_log. unfold event_object, event_data, event_type in *.
  unfold webHook.
  destruct (nullish (field (prop (body req) "data") "object")) eqn:Ho;
    [|destruct (nullish (field (field (prop (body req) "data") "object")
                           "metadata")) eqn:Hs];
    cbn [orb];
    destruct Hf as [Ht|[Ht|Ht]]; rewrite Ht; cbn beta zeta;
    rewrite webHook_status by assumption; literals;
    unfold res_set_status, res_json; run;
    try (rewrite bind_read_null by assumption); reflexivity.
Qed.

(** A subscription event whose object or metadata is missing. *)
Lemma webHook_run_no_metadata (req : http_request) (w : world) :
  event_type req = VStr "customer.subscription.created"
  \/ event_type req = VStr "customer.subscription.updated" ->
  nullish (event_data req) = false ->
  nullish (event_object req) || nullish (field (event_object req) "metadata")
  = true ->
  webHook store_match changeUnixTimestampFormat new_oid req w = (Throw TypeError, w).
Proof.
  intros Hf Hd Hn.
  unfold event_object, event_data, event_type in *.
  unfold webHook.
  destruct (nullish (field (prop (body req) "data") "object")) eqn:Ho;
    [|cbn [orb] in Hn];
    destruct Hf as [Ht|Ht]; rewrite Ht; cbn beta zeta;
    rewrite webHook_status by assumption; literals; run;
    rewrite bind_read_null by assumption; reflexivity.
Qed.

(** An event of a type the handler does not name. *)
Lemma webHook_run_unlisted (req : http_request) (w : world) :
  invoice_family (event_type req) = false ->
  metadata_family (event_type req) = false ->
  is_str (event_type req) "charge.succeeded" = false ->
  is_str (event_type req) "payment_method.attached" = false ->
  nullish (event_data req) = false ->
  webHook store_match changeUnixTimestampFormat new_oid req w
  = (Ok (mkResponse 200 None),
     set_res_status 200
       (with_log (event_log req VUndef (new_oid (oid_counter w))) w)).
Proof.
  unfold invoice_family, metadata_family, event_log.
  unfold event_object, event_data, event_type, webHook.
  intros Hi Hm Hc Hp Hd.
  rewrite webHook_status by assumption. rewrite Hi, Hm, Hc, Hp.
  apply orb_false_elim in Hm as [Hm _]. apply orb_false_elim in Hm as [Hm _].
  apply orb_false_elim in Hm as [Hm _]. apply orb_false_elim in Hm as [Hcr Hup].
  rewrite Hcr, Hup. cbn [negb andb when].
  unfold res_set_status, res_json. run. reflexivity.
Qed.

(** A [charge.succeeded] or [payment_method.attached] event. *)
Lemma webHook_run_exempt (req : http_request) (w : world) :
  event_type req = VStr "charge.succeeded"
  \/ event_type req = VStr "payment_method.attached" ->
  nullish (event_data req) = false ->
  webHook store_match changeUnixTimestampFormat new_oid req w
  = (Ok (mkResponse 200 None), set_res_status 200 w).
Proof.
  unfold event_data, event_type, webHook. intros Hf Hd.
  destruct Hf as [Ht|Ht]; rewrite Ht; cbn beta zeta;
    rewrite webHook_status by assumption; literals;
    unfold res_set_status, res_json; run; reflexivity.
Qed.

(** An update that finds no incomplete record and announces the end of the
    subscription. *)
Lemma webHook_run_cancellation (req : http_request) (w : world) :
  event_type req = VStr "customer.subscription.updated" ->
  carries_subscription req = true ->
  findOne (incomplete_with store_match (field (event_object req) "id")) (subscriptions w)
  = None ->
  truthy (field (event_object req) "cancel_at_period_end") = true ->
  webHook store_match changeUnixTimestampFormat new_oid req w
  = (Ok (mkResponse 200 None),
     set_res_status 200
       (with_log
          (event_log req (field (field (event_object req) "metadata") "userId")
             (new_oid (oid_counter w))) w)).
Proof.
  intros Ht Hc Hf Hcancel.
  apply carries_subscription_elim in Hc as (Hd & Ho & Hm).
  unfold event_log. unfold event_object, event_data, event_type in *.
  unfold webHook. rewrite Ht. cbn beta zeta.
  rewrite webHook_status by assumption. literals.
  unfold Subscription_findOne, res_set_status, res_json.
  run. cbn [subscriptions with_log set_oid_counter set_paymentLogs].
  rewrite Hf. run. rewrite Hcancel. literals. run. reflexivity.
Qed.


(** ** When [webHook] answers *)

Lemma readable_subscription (req : http_request) :
  metadata_family (event_type req) = true ->
  envelope_readable req = true -> carries_subscription req = true.
Proof.
  unfold envelope_readable, carries_subscription. intros Hm H.
  apply metadata_family_inv in Hm.
  apply andb_prop in H as [Hd H]. rewrite Hd.
  destruct Hm as [Ht|[Ht|[Ht|[Ht|Ht]]]]; rewrite Ht in H; exact H.
Qed.

(** X1. [webHook] answers every envelope that has the parts it reads:
    [data]; for an invoice event [data.object] and its
    [subscription_details]; for a subscription, session or payment-intent
    event [data.object] and its [metadata].  The answer is the empty 200. *)
Theorem webHook_answers_readable (req : http_request) (w : world) :
  envelope_readable req = true ->
  exists w',
    webHook store_match changeUnixTimestampFormat new_oid req w
    = (Ok (mkResponse 200 None), w').
Proof.
  intros H. pose proof H as Hr.
  unfold envelope_readable in H. apply andb_prop in H as [Hd H].
  apply negb_true_iff in Hd.
  destruct (event_kind (event_type req))
    as [K|[K|[K|[K|(Hi & Hm & Hc & Hp)]]]].
  - assert (Hf : invoice_family (event_type req) = true)
      by (destruct K as [K|[K|K]]; rewrite K; reflexivity).
    rewrite Hf in H. rewrite (webHook_run_invoice req w Hf Hd).
    apply andb_prop in H as [Ho Hs]. apply negb_true_iff in Ho, Hs.
    rewrite Ho, Hs. eexists; reflexivity.
  - assert (Hf : metadata_family (event_type req) = true)
      by (destruct K as [K|K]; rewrite K; reflexivity).
    pose proof (readable_subscription req Hf Hr) as Hc.
    destruct K as [K|K].
    + pose proof (webHook_run_created store_match changeUnixTimestampFormat new_oid req w K Hc)
        as Hrun. cbv zeta in Hrun. eauto.
    + destruct (findOne (incomplete_with store_match (field (event_object req) "id"))
                  (subscriptions w)) as [sub|] eqn:Hfind.
      * rewrite (webHook_run_incomplete store_match changeUnixTimestampFormat new_oid
                   req w sub K Hc Hfind). eauto.
      * destruct (truthy (field (event_object req) "cancel_at_period_end"))
          eqn:Hcancel.
        -- rewrite (webHook_run_cancellation req w K Hc Hfind Hcancel). eauto.
        -- pose proof (webHook_run_renewal store_match changeUnixTimestampFormat new_oid
                         req w K Hc Hfind Hcancel) as Hrun.
           cbv zeta in Hrun. eauto.
  - assert (Hf : metadata_family (event_type req) = true)
      by (destruct K as [K|[K|K]]; rewrite K; reflexivity).
    pose proof (readable_subscription req Hf Hr) as Hc.
    apply carries_subscription_elim in Hc as (_ & Ho & Hm).
    rewrite (webHook_run_session req w K Hd), Ho, Hm. eexists; reflexivity.
  - rewrite (webHook_run_exempt req w K Hd). eauto.
  - rewrite (webHook_run_unlisted req w Hi Hm Hc Hp Hd). eauto.
Qed.

(** X2. On every other envelope [webHook] ends in a TypeError before its
    first write: the world is the one it started from. *)
Theorem webHook_throws_unreadable (req : http_request) (w : world) :
  envelope_readable req = false ->
  webHook store_match changeUnixTimestampFormat new_oid req w = (Throw TypeError, w).
Proof.
  unfold envelope_readable. intros H.
  destruct (nullish (event_data req)) eqn:Hd;
    [now apply webHook_run_no_data|].
  cbn [negb andb] in H.
  destruct (invoice_family (event_type req)) eqn:Hi.
  - rewrite (webHook_run_invoice req w Hi Hd).
    rewrite <- negb_orb in H. apply negb_false_iff in H. now rewrite H.
  - destruct (metadata_family (event_type req)) eqn:Hm; [|discriminate H].
    rewrite <- negb_orb in H. apply negb_false_iff in H.
    destruct (metadata_family_inv _ Hm) as [K|[K|K]].
    + apply webHook_run_no_metadata; auto.
    + apply webHook_run_no_metadata; auto.
    + rewrite (webHook_run_session req w K Hd). now rewrite H.
Qed.

(** X3. An event that is neither a subscription event nor one of the two
    exempt types adds one payment log and nothing else.  The log's user id
    is [data.object.subscription_details.userId] for an invoice event,
    [data.object.metadata.userId] for a session or payment-intent event,
    and absent for every other type. *)
Theorem webHook_plain_event (req : http_request) (w : world) :
  envelope_readable req = true ->
  is_str (event_type req) "customer.subscription.created" = false ->
  is_str (event_type req) "customer.subscription.updated" = false ->
  is_str (event_type req) "charge.succeeded" = false ->
  is_str (event_type req) "payment_method.attached" = false ->
  let uid :=
    if invoice_family (event_type req)
    then field (field (event_object req) "subscription_details") "userId"
    else if metadata_family (event_type req)
    then field (field (event_object req) "metadata") "userId"
    else VUndef in
  webHook store_match changeUnixTimestampFormat new_oid req w
  = (Ok (mkResponse 200 None),
     set_res_status 200
       (with_log (event_log req uid (new_oid (oid_counter w))) w)).
Proof.
  intros H Hcr Hup Hc Hp. cbv zeta. pose proof H as Hr.
  unfold envelope_readable in H. apply andb_prop in H as [Hd H].
  apply negb_true_iff in Hd.
  destruct (event_kind (event_type req))
    as [K|[K|[K|[K|(Hi & Hm & _ & _)]]]].
  - assert (Hf : invoice_family (event_type req) = true)
      by (destruct K as [K|[K|K]]; rewrite K; reflexivity).
    rewrite Hf in H |- *. rewrite (webHook_run_invoice req w Hf Hd).
    apply andb_prop in H as [Ho Hs]. apply negb_true_iff in Ho, Hs.
    now rewrite Ho, Hs.
  - destruct K as [K|K]; rewrite K in *; discriminate.
  - assert (Hf : metadata_family (event_type req) = true)
      by (destruct K as [K|[K|K]]; rewrite K; reflexivity).
    assert (Hi : invoice_family (event_type req) = false)
      by (destruct K as [K|[K|K]]; rewrite K; reflexivity).
    pose proof (readable_subscription req Hf Hr) as Hcs.
    apply carries_subscription_elim in Hcs as (_ & Ho & Hm).
    rewrite Hi, Hf. rewrite (webHook_run_session req w K Hd), Ho, Hm.
    reflexivity.
  - destruct K as [K|K]; rewrite K in *; discriminate.
  - rewrite Hi, Hm. now apply webHook_run_unlisted.
Qed.

(** X4. A [customer.subscription.updated] event that announces the end of
    the subscription and finds no incomplete record writes no subscription
    and patches no payment log: the event's own log is all it adds. *)
Theorem webHook_pending_cancellation (req : http_request) (w : world) :
  event_type req = VStr "customer.subscription.updated" ->
  carries_subscription req = true ->
  truthy (field (event_object req) "cancel_at_period_end") = true ->
  (forall d, In d (subscriptions w) ->
             incomplete_with store_match (field (event_object req) "id") d = false) ->
  exists w' log,
    webHook store_match changeUnixTimestampFormat new_oid req w
    = (Ok (mkResponse 200 None), w')
    /\ subscriptions w' = subscriptions w
    /\ paymentLogs w' = paymentLogs w ++ [log]
    /\ log_userId log = field (field (event_object req) "metadata") "userId"
    /\ response log = VObj (body req)
    /\ status log = logged_status (event_object req).
Proof.
  intros Ht Hc Hcancel Hnone. apply find_none_iff in Hnone.
  rewrite (webHook_run_cancellation req w Ht Hc Hnone Hcancel).
  eexists _, _. split; [reflexivity|]. repeat split.
Qed.

(** ** What the handlers leave alone *)

Lemma preserves_PaymentLog_create (P : world -> Prop) (doc : oid -> PaymentLog) :
  (forall w, P w -> P (with_log (doc (new_oid (oid_counter w))) w)) ->
  preserves P (PaymentLog_create new_oid doc).
Proof. intros Hf w H. apply Hf, H. Qed.

Lemma preserves_Subscription_create (P : world -> Prop)
    (doc : oid -> Subscription) :
  (forall w, P w -> P (with_subscription (doc (new_oid (oid_counter w))) w)) ->
  preserves P (Subscription_create new_oid doc).
Proof. intros Hf w H. apply Hf, H. Qed.

(** The writes of [webHook], one condition each. *)
Lemma preserves_webHook (P : world -> Prop) (req : http_request) :
  (forall d w, log_id d = new_oid (oid_counter w) -> P w -> P (with_log d w)) ->
  (forall d w, sub_id d = new_oid (oid_counter w) ->
               P w -> P (with_subscription d w)) ->
  (forall p w, P w ->
     P (set_subscriptions
          (updateOne p (set_subscription_state (VStr "active") (VStr "new"))
             (subscriptions w)) w)) ->
  (forall p rs st ev w, P w ->
     P (set_paymentLogs
          (updateOne p (set_response_status_event rs st ev) (paymentLogs w)) w)) ->
  (forall c w, P w -> P (set_res_status c w)) ->
  preserves P (webHook store_match changeUnixTimestampFormat new_oid req).
Proof.
  intros Hlog Hsub Hact Hpatch Hres.
  unfold webHook, Subscription_findOne, Subscription_updateOne,
    PaymentLog_updateOne, res_set_status, res_json.
  steps;
    first [ apply preserves_Subscription_create; intros; now apply Hsub
          | apply preserves_PaymentLog_create; intros; now apply Hlog
          | apply preserves_modify; intros;
            first [apply Hact | apply Hpatch | apply Hres]; assumption ].
Qed.

(** X5. [webHook] sends nothing to the processor and leaves the users as
    they are, whatever the envelope and however the handler ends. *)
Theorem webHook_stays_local (req : http_request) (w : world) :
  stripe_calls (snd (webHook store_match changeUnixTimestampFormat new_oid req w))
  = stripe_calls w
  /\ users (snd (webHook store_match changeUnixTimestampFormat new_oid req w)) = users w.
Proof.
  apply (preserves_webHook
           (fun w' => stripe_calls w' = stripe_calls w /\ users w' = users w) req);
    auto.
Qed.

(** X6. Only the two subscription events write subscriptions: on an event
    of any other type the collection is left as it was. *)
Theorem webHook_other_events_keep_subscriptions (req : http_request) (w : world) :
  is_str (event_type req) "customer.subscription.created" = false ->
  is_str (event_type req) "customer.subscription.updated" = false ->
  subscriptions (snd (webHook store_match changeUnixTimestampFormat new_oid req w))
  = subscriptions w.
Proof.
  unfold event_type. intros Hcr Hup.
  assert (H : preserves (fun w' => subscriptions w' = subscriptions w)
                (webHook store_match changeUnixTimestampFormat new_oid req)).
  { unfold webHook. rewrite Hcr, Hup. cbn [when].
    unfold res_set_status, res_json. steps;
      first [ apply preserves_PaymentLog_create | apply preserves_modify ];
      intros; assumption. }
  now apply H.
Qed.

(** The writes of [createCheckoutSession]. *)
Lemma preserves_createCheckoutSession (P : world -> Prop) (req : http_request) :
  (forall d w, log_id d = new_oid (oid_counter w) -> P w -> P (with_log d w)) ->
  (forall l w, P w -> P (set_stripe_calls l w)) ->
  (forall c w, P w -> P (set_res_status c w)) ->
  preserves P (createCheckoutSession new_oid to_string session_url req).
Proof.
  intros Hlog Hcalls Hres.
  unfold createCheckoutSession, User_findById, Subscription_findOne,
    stripe_products_list, stripe_checkout_sessions_create, res_set_status, res_json.
  steps;
    first [ apply preserves_PaymentLog_create; intros; now apply Hlog
          | apply preserves_modify; intros;
            first [apply Hcalls | apply Hres]; assumption ].
Qed.

(** The writes of [cancelPayment]. *)
Lemma preserves_cancelPayment (P : world -> Prop) (req : http_request) :
  (forall p st ev w, P w ->
     P (set_paymentLogs
          (updateOne p (set_status_event st ev) (paymentLogs w)) w)) ->
  (forall c w, P w -> P (set_res_status c w)) ->
  preserves P (cancelPayment store_match req).
Proof.
  intros Hpatch Hres.
  unfold cancelPayment, PaymentLog_updateOne, res_set_status, res_json.
  steps; apply preserves_modify; intros;
    first [apply Hpatch | apply Hres]; assumption.
Qed.

(** The writes of [cancelSubscription]. *)
Lemma preserves_cancelSubscription (P : world -> Prop) (req : http_request) :
  (forall l w, P w -> P (set_stripe_calls l w)) ->
  (forall c w, P w -> P (set_res_status c w)) ->
  preserves P (cancelSubscription store_match req).
Proof.
  intros Hcalls Hres.
  unfold cancelSubscription, Subscription_findOne, stripe_subscriptions_update,
    res_set_status, res_json.
  steps; apply preserves_modify; intros;
    first [apply Hcalls | apply Hres]; assumption.
Qed.

(** X7. Subscriptions are written by [webHook] alone:
    [createCheckoutSession], [cancelPayment] and [cancelSubscription] leave
    the collection as it was, whatever the request and however they end;
    [cancelSubscription] leaves the payment logs as well. *)
Theorem subscriptions_written_by_webHook_only (req : http_request) (w : world) :
  subscriptions (snd (createCheckoutSession new_oid to_string session_url req w))
  = subscriptions w
  /\ subscriptions (snd (cancelPayment store_match req w)) = subscriptions w
  /\ subscriptions (snd (cancelSubscription store_match req w)) = subscriptions w
  /\ paymentLogs (snd (cancelSubscription store_match req w)) = paymentLogs w.
Proof.
  split; [|split; [|split]].
  - apply (preserves_createCheckoutSession
             (fun w' => subscriptions w' = subscriptions w) req); auto.
  - apply (preserves_cancelPayment
             (fun w' => subscriptions w' = subscriptions w) req); auto.
  - apply (preserves_cancelSubscription
             (fun w' => subscriptions w' = subscriptions w) req); auto.
  - apply (preserves_cancelSubscription
             (fun w' => paymentLogs w' = paymentLogs w) req); auto.
Qed.

(** ** Records and their ids *)

Lemma updateOne_keeps_log_ids (p : PaymentLog -> bool) (f : PaymentLog -> PaymentLog)
    (l : list PaymentLog) :
  (forall d, log_id (f d) = log_id d) ->
  map log_id (updateOne p f l) = map log_id l.
Proof.
  intros Hf. induction l as [|a l IH]; simpl; [reflexivity|].
  destruct (p a); simpl; [now rewrite Hf | now rewrite IH].
Qed.

(** The ids of a world go on into the next: documents are appended or
    patched in place. *)
Lemma ids_extend_refl (w : world) :
  (exists xs, sub_ids w = sub_ids w ++ xs)
  /\ (exists ys, log_ids w = log_ids w ++ ys).
Proof. split; exists []; now rewrite app_nil_r. Qed.

(** X8. No handler removes or moves a record: after any request, however
    it ends, the ids of each collection are the ids it had, in the same
    order, followed by those of the documents created. *)
Theorem handlers_keep_records (req : http_request) (w : world) :
  let extends (w' : world) :=
    (exists xs, sub_ids w' = sub_ids w ++ xs)
    /\ (exists ys, log_ids w' = log_ids w ++ ys) in
  extends (snd (webHook store_match changeUnixTimestampFormat new_oid req w))
  /\ extends (snd (createCheckoutSession new_oid to_string session_url req w))
  /\ extends (snd (cancelPayment store_match req w))
  /\ extends (snd (cancelSubscription store_match req w)).
Proof.
  cbv zeta.
  assert (Hlog : forall d w0,
            (exists xs, sub_ids w0 = sub_ids w ++ xs)
            /\ (exists ys, log_ids w0 = log_ids w ++ ys) ->
            (exists xs, sub_ids (with_log d w0) = sub_ids w ++ xs)
            /\ (exists ys, log_ids (with_log d w0) = log_ids w ++ ys)).
  { intros d w0 [Hs [ys Hl]]. split; [exact Hs|].
    exists (ys ++ [log_id d]). unfold log_ids in *. simpl.
    now rewrite map_app, Hl, app_assoc. }
  assert (Hsub : forall d w0,
            (exists xs, sub_ids w0 = sub_ids w ++ xs)
            /\ (exists ys, log_ids w0 = log_ids w ++ ys) ->
            (exists xs, sub_ids (with_subscription d w0) = sub_ids w ++ xs)
            /\ (exists ys, log_ids (with_subscription d w0) = log_ids w ++ ys)).
  { intros d w0 [[xs Hs] Hl]. split; [|exact Hl].
    exists (xs ++ [sub_id d]). unfold sub_ids in *. simpl.
    now rewrite map_app, Hs, app_assoc. }
  repeat split.
  1,2: apply (preserves_webHook
           (fun w' => (exists xs, sub_ids w' = sub_ids w ++ xs)
                      /\ (exists ys, log_ids w' = log_ids w ++ ys)) req);
    auto using ids_extend_refl;
    intros; unfold sub_ids, log_ids in *; simpl;
    rewrite ?updateOne_keeps_ids, ?updateOne_keeps_log_ids by reflexivity;
    assumption.
  1,2: apply (preserves_createCheckoutSession
           (fun w' => (exists xs, sub_ids w' = sub_ids w ++ xs)
                      /\ (exists ys, log_ids w' = log_ids w ++ ys)) req);
    auto using ids_extend_refl.
  1,2: apply (preserves_cancelPayment
           (fun w' => (exists xs, sub_ids w' = sub_ids w ++ xs)
                      /\ (exists ys, log_ids w' = log_ids w ++ ys)) req);
    auto using ids_extend_refl;
    intros; unfold sub_ids, log_ids in *; simpl;
    rewrite ?updateOne_keeps_log_ids by reflexivity; assumption.
  1,2: apply (preserves_cancelSubscription
           (fun w' => (exists xs, sub_ids w' = sub_ids w ++ xs)
                      /\ (exists ys, log_ids w' = log_ids w ++ ys)) req);
    auto using ids_extend_refl.
Qed.

Lemma NoDup_snoc {A : Type} (l : list A) (x : A) :
  NoDup l -> ~ In x l -> NoDup (l ++ [x]).
Proof.
  intros Hnd Hx. apply NoDup_rev in Hnd.
  rewrite <- (rev_involutive (l ++ [x])). apply NoDup_rev.
  rewrite rev_app_distr. simpl. constructor; [|exact Hnd].
  intros Hin. apply Hx. now apply in_rev.
Qed.

Section Ids.

Hypothesis new_oid_inj : forall m n, new_oid m = new_oid n -> m = n.

Lemma ids_ok_with_log (d : PaymentLog) (w : world) :
  log_id d = new_oid (oid_counter w) ->
  ids_ok new_oid w -> ids_ok new_oid (with_log d w).
Proof.
  intros Hd (Hs & Hl & Hfresh). unfold ids_ok, sub_ids, log_ids in *. simpl.
  rewrite map_app. simpl.
  destruct (Hfresh (oid_counter w) (le_n _)) as [_ Hnew].
  split; [exact Hs|]. split.
  - apply NoDup_snoc; [exact Hl | now rewrite Hd].
  - intros n Hn. destruct (Hfresh n) as [Hns Hnl]; [lia|].
    split; [exact Hns|]. intros Hin. apply in_app_or in Hin as [Hin|[E|[]]].
    + contradiction.
    + rewrite Hd in E. apply new_oid_inj in E. lia.
Qed.

Lemma ids_ok_with_subscription (d : Subscription) (w : world) :
  sub_id d = new_oid (oid_counter w) ->
  ids_ok new_oid w -> ids_ok new_oid (with_subscription d w).
Proof.
  intros Hd (Hs & Hl & Hfresh). unfold ids_ok, sub_ids, log_ids in *. simpl.
  rewrite map_app. simpl.
  destruct (Hfresh (oid_counter w) (le_n _)) as [Hnew _].
  split; [|split; [exact Hl|]].
  - apply NoDup_snoc; [exact Hs | now rewrite Hd].
  - intros n Hn. destruct (Hfresh n) as [Hns Hnl]; [lia|].
    split; [|exact Hnl]. intros Hin. apply in_app_or in Hin as [Hin|[E|[]]].
    + contradiction.
    + rewrite Hd in E. apply new_oid_inj in E. lia.
Qed.

Lemma ids_ok_patch_logs (p : PaymentLog -> bool) (f : PaymentLog -> PaymentLog)
    (w : world) :
  (forall d, log_id (f d) = log_id d) ->
  ids_ok new_oid w ->
  ids_ok new_oid (set_paymentLogs (updateOne p f (paymentLogs w)) w).
Proof.
  intros Hf H. unfold ids_ok, sub_ids, log_ids in *. simpl.
  now rewrite updateOne_keeps_log_ids.
Qed.

Lemma ids_ok_patch_subscriptions (p : Subscription -> bool) (st ty : value)
    (w : world) :
  ids_ok new_oid w ->
  ids_ok new_oid
    (set_subscriptions
       (updateOne p (set_subscription_state st ty) (subscriptions w)) w).
Proof.
  intros H. unfold ids_ok, sub_ids, log_ids in *. simpl.
  now rewrite updateOne_keeps_ids.
Qed.

(** X9. With a driver that never hands out an id twice, every handler keeps
    the ids in order: no id occurs twice in a collection and the ids still
    to be handed out are in neither, after any request and however the
    handler ends. *)
Theorem handlers_keep_ids_unique (req : http_request) (w : world) :
  ids_ok new_oid w ->
  ids_ok new_oid (snd (webHook store_match changeUnixTimestampFormat new_oid req w))
  /\ ids_ok new_oid
       (snd (createCheckoutSession new_oid to_string session_url req w))
  /\ ids_ok new_oid (snd (cancelPayment store_match req w))
  /\ ids_ok new_oid (snd (cancelSubscription store_match req w)).
Proof.
  intros H. split; [|split; [|split]].
  - apply (preserves_webHook (ids_ok new_oid) req); auto.
    + intros. now apply ids_ok_with_log.
    + intros. now apply ids_ok_with_subscription.
    + intros. now apply ids_ok_patch_subscriptions.
    + intros. now apply ids_ok_patch_logs.
  - apply (preserves_createCheckoutSession (ids_ok new_oid) req); auto.
    intros. now apply ids_ok_with_log.
  - apply (preserves_cancelPayment (ids_ok new_oid) req); auto.
    intros. now apply ids_ok_patch_logs.
  - apply (preserves_cancelSubscription (ids_ok new_oid) req); auto.
Qed.

End Ids.

(** ** [createCheckoutSession] past the validation *)

(** X10. A valid checkout request of a user the [User] collection does not
    hold is refused with 401 [User not found.]; nothing is written and the
    processor is not called. *)
Theorem createCheckoutSession_unknown_user (req : http_request) (w : world) :
  invalid_checkout req = false ->
  ~ In (user req) (users w) ->
  createCheckoutSession new_oid to_string session_url req w
  = (Throw (Error "User not found."), set_res_status 401 w).
Proof.
  intros Hv Hu. rewrite (createCheckoutSession_run_valid _ _ _ req w Hv).
  unfold User_findById, res_set_status. run.
  rewrite (find_user_none _ _ Hu). cbn [when]. run. reflexivity.
Qed.

(** A valid request of a known user without a current subscription reaches
    the processor. *)
Lemma createCheckoutSession_run_products (req : http_request) (w : world) :
  invalid_checkout req = false ->
  In (user req) (users w) ->
  (forall d, In d (subscriptions w) ->
             holds_subscription (user req) (clock w) d = false) ->
  createCheckoutSession new_oid to_string session_url req w
  = (match stripe_products w with
     | first :: _ =>
         price <- read first "default_price" ;;
         let reqObj := VObj [("price", price); ("quantity", VNum 1)] in
         payment <- PaymentLog_create new_oid (fun i =>
           mkPaymentLog i (VStr (user req)) reqObj VUndef VUndef VUndef) ;;
         price' <- read first "default_price" ;;
         let metaDataObj :=
           VObj [("paymentLog", VStr (log_id payment));
                 ("userId", VStr (user req)); ("priceId", price')] in
         let subscription_data :=
           if is_str (param req "type") "trial"
           then VObj [("metadata", metaDataObj);
                      ("trial_settings",
                       VObj [("end_behavior",
                              VObj [("missing_payment_method", VStr "cancel")])]);
                      ("trial_period_days", VNum 3)]
           else VObj [("metadata", metaDataObj)] in
         session <- stripe_checkout_sessions_create session_url
           (VObj [("payment_method_types", VArr [VStr "card"]);
                  ("line_items", VArr [reqObj]);
                  ("mode", VStr "subscription");
                  ("subscription_data", subscription_data);
                  ("metadata", metaDataObj);
                  ("success_url", VStr (to_string (param req "successUrl")));
                  ("cancel_url",
                   VStr (to_string (param req "cancelUrl") ++ "?id="
                         ++ log_id payment)%string)]) ;;
         url <- read session "url" ;;
         res_set_status 200 ;;
         res_json (Some (VObj [("url", url)]))
     | [] =>
         res_set_status 401 ;; throw (Error "Plan not found.")
     end) (set_stripe_calls (stripe_calls w ++ [ProductsList]) w).
Proof.
  intros Hv Hu Hnone. apply find_none_iff in Hnone.
  rewrite (createCheckoutSession_run_valid _ _ _ req w Hv).
  unfold User_findById, Subscription_findOne, stripe_products_list, findOne.
  run. rewrite (find_user _ _ Hu). cbn [when]. run.
  rewrite Hnone. cbn [option_map when]. run. reflexivity.
Qed.

(** X11. When the processor lists no product, a request that passed every
    check is refused with 401 [Plan not found.]: the product list was
    asked for, no payment log was created and no session requested. *)
Theorem createCheckoutSession_no_plan (req : http_request) (w : world) :
  invalid_checkout req = false ->
  In (user req) (users w) ->
  (forall d, In d (subscriptions w) ->
             holds_subscription (user req) (clock w) d = false) ->
  stripe_products w = [] ->
  createCheckoutSession new_oid to_string session_url req w
  = (Throw (Error "Plan not found."),
     set_res_status 401 (set_stripe_calls (stripe_calls w ++ [ProductsList]) w)).
Proof.
  intros Hv Hu Hnone Hp.
  rewrite (createCheckoutSession_run_products req w Hv Hu Hnone).
  cbn [stripe_products set_stripe_calls]. rewrite Hp.
  unfold res_set_status. run. reflexivity.
Qed.



(** X14. [Subscription already exist.] is thrown only against a record:
    when the handler refuses with it, the caller owns a subscription with
    status [active] or [trialing] whose end date is a date not before the
    clock. *)
Theorem createCheckoutSession_conflict_only_if (req : http_request) (w w' : world) :
  createCheckoutSession new_oid to_string session_url req w
  = (Throw (Error "Subscription already exist."), w') ->
  exists d ms,
    In d (subscriptions w)
    /\ userId d = VStr (user req)
    /\ (subscriptionStatus d = VStr "active"
        \/ subscriptionStatus d = VStr "trialing")
    /\ endDate d = VDate ms
    /\ clock w <= ms.
Proof.
  intros H. destruct (invalid_checkout req) eqn:Hv.
  - destruct (createCheckoutSession_run_invalid_message new_oid to_string
                session_url req w Hv)
      as (msg & Hrun & [-> | ->]); rewrite Hrun in H; discriminate H.
  - rewrite (createCheckoutSession_run_valid _ _ _ req w Hv) in H.
    unfold User_findById, Subscription_findOne, res_set_status in H. run_at H.
    destruct (find (fun u => (u =? user req)%string) (users w));
      cbn [when] in H; run_at H; [|discriminate H].
    destruct (findOne (holds_subscription (user req) (clock w)) (subscriptions w))
      as [d|] eqn:Hfind;
      cbn [option_map when] in H.
    + apply find_some in Hfind as [Hin Hd].
      unfold holds_subscription in Hd.
      apply andb_prop in Hd as [Hd Hdate]. apply andb_prop in Hd as [Hid Hst].
      apply value_eqb_str in Hid. apply date_gte_inv in Hdate as (ms & Hms & Hle).
      exists d, ms. repeat split; try assumption.
      apply orb_prop in Hst as [Hst|Hst]; apply value_eqb_str in Hst; auto.
    + unfold stripe_products_list, stripe_checkout_sessions_create, res_json in H.
      run_at H. cbn [stripe_products set_stripe_calls] in H.
      destruct (stripe_products w) as [|p ps]; run_at H; [discriminate H|].
      destruct (nullish p) eqn:Hp.
      * rewrite bind_read_null in H by assumption. discriminate H.
      * run_at H. discriminate H.
Qed.

(** ** The cancellation handlers, case by case *)

Lemma cancelPayment_missing_id_run (req : http_request) (w : world) :
  truthy (prop (body req) "paymentId") = false ->
  cancelPayment store_match req w
  = (Throw (Error "Please pass required all parameters."), set_res_status 400 w).
Proof.
  intros Ht. unfold cancelPayment. rewrite Ht. cbn [truthy String.eqb negb when].
  unfold res_set_status. run. reflexivity.
Qed.

(** X15. [cancelPayment] without a [paymentId] is refused with 400 before
    the payment logs are touched. *)
Theorem cancelPayment_missing_id (req : http_request) (w : world) :
  truthy (prop (body req) "paymentId") = false ->
  cancelPayment store_match req w
  = (Throw (Error "Please pass required all parameters."), set_res_status 400 w).
Proof.
  intros Ht. unfold cancelPayment. rewrite Ht. cbn [truthy String.eqb negb when].
  unfold res_set_status. run. reflexivity.
Qed.

(** X16. [cancelSubscription] without a [subscriptionId] is refused with
    400 before the subscriptions are searched; the processor is not
    called. *)
Theorem cancelSubscription_missing_id (req : http_request) (w : world) :
  truthy (prop (body req) "subscriptionId") = false ->
  cancelSubscription store_match req w
  = (Throw (Error "Please pass required all parameters."), set_res_status 400 w).
Proof.
  intros Ht. unfold cancelSubscription. rewrite Ht.
  cbn [truthy String.eqb negb when]. unfold res_set_status. run. reflexivity.
Qed.

Lemma set_paymentLogs_same (w : world) : set_paymentLogs (paymentLogs w) w = w.
Proof. destruct w; reflexivity. Qed.

(** X17. [cancelPayment] does not check that the log exists: with a
    string id that no payment log has, it answers [{success: true}] with
    200 all the same and changes nothing. *)
Theorem cancelPayment_unknown_id (req : http_request) (w : world) (i : oid) :
  prop (body req) "paymentId" = VStr i ->
  i <> EmptyString ->
  (forall d, In d (paymentLogs w) -> log_id d <> i) ->
  cancelPayment store_match req w
  = (Ok (mkResponse 200 (Some success_body)), set_res_status 200 w).
Proof.
  intros Hi Hne Hnone.
  assert (Ht : truthy (prop (body req) "paymentId") = true).
  { rewrite Hi. cbn. now apply negb_true_iff, String.eqb_neq. }
  unfold cancelPayment. rewrite Ht. cbv iota. rewrite Ht.
  cbn [negb when]. unfold PaymentLog_updateOne, res_set_status, res_json. run.
  rewrite updateOne_none, set_paymentLogs_same; [reflexivity|].
  intros d Hd. rewrite Hi. unfold has_id. cbn [filter_match is_str].
  apply String.eqb_neq. auto.
Qed.

Lemma updateOne_twice {A : Type} (p : A -> bool) (f : A -> A) (l : list A) :
  (forall d, p (f d) = p d) -> (forall d, f (f d) = f d) ->
  updateOne p f (updateOne p f l) = updateOne p f l.
Proof.
  intros Hp Hf. induction l as [|a l IH]; simpl; [reflexivity|].
  destruct (p a) eqn:Ha; simpl.
  - now rewrite Hp, Ha, Hf.
  - now rewrite Ha, IH.
Qed.

Lemma cancelPayment_run (req : http_request) (w : world) :
  truthy (prop (body req) "paymentId") = true ->
  cancelPayment store_match req w
  = (Ok (mkResponse 200 (Some success_body)),
     set_res_status 200
       (set_paymentLogs
          (updateOne (fun d => has_id store_match (prop (body req) "paymentId") (log_id d))
             (set_status_event (VStr "cancel") (VStr "cancel")) (paymentLogs w))
          w)).
Proof.
  intros Ht. unfold cancelPayment. rewrite Ht. cbv iota. rewrite Ht.
  cbn [negb when]. unfold PaymentLog_updateOne, res_set_status, res_json. run.
  reflexivity.
Qed.

(** X18. [cancelPayment] is idempotent: sent twice, a request gets the same
    answer the second time and leaves the world the first one left. *)
Theorem cancelPayment_twice (req : http_request) (w : world) :
  cancelPayment store_match req (snd (cancelPayment store_match req w))
  = cancelPayment store_match req w.
Proof.
  destruct (truthy (prop (body req) "paymentId")) eqn:Ht.
  - rewrite !cancelPayment_run by assumption.
    cbn [snd paymentLogs set_res_status set_paymentLogs].
    rewrite updateOne_twice by reflexivity. reflexivity.
  - rewrite !cancelPayment_missing_id_run by assumption. reflexivity.
Qed.

(** X19. [cancelPayment] writes two fields of one record: the first log
    with the given id gets status and event [cancel], whatever they were,
    and keeps its id, user, request and response; the logs before and
    after it are the ones that were there. *)
Theorem cancelPayment_patch (req : http_request) (w : world)
    (before after : list PaymentLog) (p : PaymentLog) :
  truthy (prop (body req) "paymentId") = true ->
  paymentLogs w = before ++ p :: after ->
  Forall (fun d => has_id store_match (prop (body req) "paymentId") (log_id d) = false) before ->
  has_id store_match (prop (body req) "paymentId") (log_id p) = true ->
  exists p',
    paymentLogs (snd (cancelPayment store_match req w)) = before ++ p' :: after
    /\ status p' = VStr "cancel"
    /\ event p' = VStr "cancel"
    /\ log_id p' = log_id p
    /\ log_userId p' = log_userId p
    /\ request p' = request p
    /\ response p' = response p.
Proof.
  intros Ht Hsplit Hbefore Hp.
  exists (set_status_event (VStr "cancel") (VStr "cancel") p).
  split; [|repeat split].
  unfold cancelPayment. rewrite Ht. cbv iota. rewrite Ht. cbn [negb when].
  unfold PaymentLog_updateOne, res_set_status, res_json. run.
  cbn [snd paymentLogs set_res_status set_paymentLogs].
  rewrite Hsplit. now apply updateOne_first.
Qed.

(** X20. The processor is asked to cancel only for the caller's own current
    subscription: when [cancelSubscription] sends anything, a record exists
    whose user is the caller, whose subscription id satisfies the filter on
    the requested one (equals it, when that is a string), whose status is
    [active] or [trialing] and whose end date is a date not before the
    clock; and what was sent is the one request to cancel at the end of the
    period. *)
Theorem cancelSubscription_only_if (req : http_request) (w : world) :
  stripe_calls (snd (cancelSubscription store_match req w)) <> stripe_calls w ->
  (exists d ms,
     In d (subscriptions w)
     /\ userId d = VStr (user req)
     /\ filter_match store_match (subscriptionId d)
          (prop (body req) "subscriptionId") = true
     /\ (forall s, prop (body req) "subscriptionId" = VStr s ->
                   subscriptionId d = VStr s)
     /\ (subscriptionStatus d = VStr "active"
         \/ subscriptionStatus d = VStr "trialing")
     /\ endDate d = VDate ms
     /\ clock w <= ms)
  /\ stripe_calls (snd (cancelSubscription store_match req w))
     = stripe_calls w ++ [cancel_at_period_end (prop (body req) "subscriptionId")].
Proof.
  unfold cancelSubscription.
  destruct (truthy (prop (body req) "subscriptionId")) eqn:Ht.
  - rewrite Ht. cbn [negb when].
    unfold Subscription_findOne, stripe_subscriptions_update, res_set_status,
      res_json. run.
    destruct (findOne _ (subscriptions w)) as [d|] eqn:Hfind; cbn [when]; run.
    + intros _. split; [|reflexivity].
      apply find_some in Hfind as [Hin Hd]. unfold cancellable in Hd.
      apply andb_prop in Hd as [Hd Hdate]. apply andb_prop in Hd as [Hd Hst].
      apply andb_prop in Hd as [Hu Hid].
      apply value_eqb_str in Hu. apply date_gte_inv in Hdate as (ms & Hms & Hle).
      exists d, ms. repeat split; try assumption.
      * intros s Hs. rewrite Hs in Hid. cbn [filter_match] in Hid.
        destruct (subscriptionId d); cbn [is_str] in Hid; try discriminate Hid.
        now apply String.eqb_eq in Hid as ->.
      * apply orb_prop in Hst as [Hst|Hst]; apply value_eqb_str in Hst; auto.
    + intros H. now contradiction H.
  - cbn [truthy String.eqb negb when]. unfold res_set_status. run.
    intros H. now contradiction H.
Qed.

(** ** [handleCreateSubscription] on its own *)

(** X21. Given a subscription object that is missing, or that has no
    [metadata], [handleCreateSubscription] throws a TypeError at its first
    read and creates nothing. *)
Theorem handleCreateSubscription_without_metadata (subData ty : value) (w : world) :
  nullish subData || nullish (field subData "metadata") = true ->
  handleCreateSubscription changeUnixTimestampFormat new_oid subData ty w
  = (Throw TypeError, w).
Proof.
  intros H. unfold handleCreateSubscription.
  destruct (nullish subData) eqn:Hs.
  - now rewrite bind_read_null.
  - cbn [orb] in H. run. now rewrite bind_read_null.
Qed.

(** ** Requests in sequence *)

(** X22. [webHook] keeps no record of the events it has seen: the same
    [customer.subscription.created] event delivered twice leaves two
    subscription records for the one subscription of the processor, alike
    but for their ids, and two payment logs. *)
Theorem webHook_created_twice (req : http_request) (w : world) :
  event_type req = VStr "customer.subscription.created" ->
  carries_subscription req = true ->
  let once := snd (webHook store_match changeUnixTimestampFormat new_oid req w) in
  let twice := snd (webHook store_match changeUnixTimestampFormat new_oid req once) in
  exists d1 d2 l1 l2,
    subscriptions twice = subscriptions w ++ [d1; d2]
    /\ paymentLogs twice = paymentLogs w ++ [l1; l2]
    /\ sub_id d1 = new_oid (S (oid_counter w))
    /\ sub_id d2 = new_oid (S (S (S (oid_counter w))))
    /\ subscriptionId d1 = field (event_object req) "id"
    /\ subscriptionId d2 = subscriptionId d1
    /\ userId d2 = userId d1
    /\ subscriptionStatus d2 = subscriptionStatus d1
    /\ subscriptionType d2 = subscriptionType d1
    /\ startDate d2 = startDate d1
    /\ endDate d2 = endDate d1
    /\ customerId d2 = customerId d1
    /\ priceId d2 = priceId d1.
Proof.
  intros Ht Hc. cbv zeta.
  pose proof (webHook_run_created store_match changeUnixTimestampFormat new_oid req w Ht Hc)
    as H1. cbv zeta in H1. rewrite H1. cbn [snd].
  pose proof (webHook_run_created store_match changeUnixTimestampFormat new_oid req
                (snd (webHook store_match changeUnixTimestampFormat new_oid req w)) Ht Hc)
    as H2. cbv zeta in H2. rewrite H1 in H2. cbn [snd] in H2. rewrite H2.
  cbn [snd subscriptions paymentLogs oid_counter set_res_status
       with_subscription with_log set_oid_counter set_subscriptions
       set_paymentLogs].
  eexists _, _, _, _. rewrite <- !app_assoc. cbn [app].
  repeat split.
Qed.

(** X23. The id that [createCheckoutSession] puts at the end of the
    [cancel_url] cancels the attempt it belongs to: [cancelPayment] with
    that id, by whoever sends it, sets status and event of the log just
    created to [cancel] and changes no other log. *)
Theorem checkout_then_cancelPayment (req : http_request) (w : world)
    (first : value) (others : list value) (caller : oid) :
  invalid_checkout req = false ->
  In (user req) (users w) ->
  (forall d, In d (subscriptions w) ->
             holds_subscription (user req) (clock w) d = false) ->
  stripe_products w = first :: others ->
  nullish first = false ->
  new_oid (oid_counter w) <> EmptyString ->
  ~ In (new_oid (oid_counter w)) (log_ids w) ->
  let i := new_oid (oid_counter w) in
  let w1 := snd (createCheckoutSession new_oid to_string session_url req w) in
  paymentLogs (snd (cancelPayment store_match (mkRequest [("paymentId", VStr i)] caller) w1))
  = paymentLogs w
    ++ [mkPaymentLog i (VStr (user req))
          (VObj [("price", field first "default_price"); ("quantity", VNum 1)])
          VUndef (VStr "cancel") (VStr "cancel")].
Proof.
  intros Hv Hu Hnone Hp Hfirst Hne Hfresh. cbv zeta.
  rewrite (createCheckoutSession_run_products req w Hv Hu Hnone).
  cbn [stripe_products set_stripe_calls]. rewrite Hp.
  unfold stripe_checkout_sessions_create, res_set_status, res_json. run.
  rewrite bind_read by reflexivity. run.
  assert (Ht : truthy (prop (body (mkRequest
                 [("paymentId", VStr (new_oid (oid_counter w)))] caller))
                 "paymentId") = true).
  { cbn. now apply negb_true_iff, String.eqb_neq. }
  rewrite (cancelPayment_run _ _ Ht).
  cbn [snd ret paymentLogs set_res_status set_stripe_calls with_log set_oid_counter
       set_paymentLogs oid_counter].
  cbn [body prop String.eqb Ascii.eqb Bool.eqb].
  rewrite updateOne_first; [reflexivity | |].
  - apply no_earlier_id. intros d Hd E. apply Hfresh. unfold log_ids.
    rewrite <- E. now apply in_map.
  - rewrite has_id_string. cbn [log_id]. apply String.eqb_refl.
Qed.

(** X24. Once the processor has reported a subscription of a user as
    [active] or [trialing], with a period that ends at a date not before
    the clock, that user's next valid checkout request is refused with 401
    [Subscription already exist.]. *)
Theorem webHook_created_then_checkout (event req : http_request) (w : world)
    (ms : Z) :
  event_type event = VStr "customer.subscription.created" ->
  carries_subscription event = true ->
  field (field (event_object event) "metadata") "userId" = VStr (user req) ->
  field (event_object event) "status" = VStr "active"
  \/ field (event_object event) "status" = VStr "trialing" ->
  changeUnixTimestampFormat (field (event_object event) "current_period_end")
  = VDate ms ->
  clock w <= ms ->
  invalid_checkout req = false ->
  In (user req) (users w) ->
  let w1 := snd (webHook store_match changeUnixTimestampFormat new_oid event w) in
  createCheckoutSession new_oid to_string session_url req w1
  = (Throw (Error "Subscription already exist."), set_res_status 401 w1).
Proof.
  intros Ht Hc Huid Hst Hend Hle Hv Hu. cbv zeta.
  pose proof (webHook_run_created store_match changeUnixTimestampFormat new_oid event w Ht Hc)
    as H1. cbv zeta in H1. rewrite H1. cbn [snd].
  rewrite (createCheckoutSession_run_valid _ _ _ req _ Hv).
  unfold User_findById, Subscription_findOne, res_set_status. run.
  cbn [users clock subscriptions set_res_status with_subscription with_log
       set_oid_counter set_subscriptions set_paymentLogs].
  rewrite (find_user _ _ Hu). cbn [when]. run.
  cbn [users clock subscriptions set_res_status with_subscription with_log
       set_oid_counter set_subscriptions set_paymentLogs].
  match goal with
  | |- context [findOne ?p (subscriptions w ++ [?d])] =>
      destruct (find_exists p (subscriptions w ++ [d]) d) as [x Hx];
        [apply in_or_app; right; simpl; auto | |]
  end.
  - unfold holds_subscription.
    cbn [userId subscriptionStatus endDate]. rewrite Huid, Hend.
    cbn [value_eqb date_gte]. rewrite String.eqb_refl.
    apply Z.leb_le in Hle. rewrite Hle.
    destruct Hst as [-> | ->]; reflexivity.
  - unfold findOne. rewrite Hx. cbn [option_map when]. run. reflexivity.
Qed.

(** ** The payment logs after an event *)

(** X27. Whenever [webHook] returns on an event that is neither
    [charge.succeeded] nor [payment_method.attached], it has created exactly
    one payment log, with the next id, holding the envelope, the logged
    status, the event type and the user id of the event's family.  The logs
    are the old ones followed by that log, except in the renewal branch (an
    update that finds no incomplete record and announces no cancellation),
    where the first log satisfying the filter on [metadata.paymentLog] is
    patched in place as well. *)
Theorem webHook_logs_event (req : http_request) (w w' : world)
    (r : http_response) :
  is_str (event_type req) "charge.succeeded" = false ->
  is_str (event_type req) "payment_method.attached" = false ->
  webHook store_match changeUnixTimestampFormat new_oid req w = (Ok r, w') ->
  let o := event_object req in
  let uid :=
    if invoice_family (event_type req)
    then field (field o "subscription_details") "userId"
    else if metadata_family (event_type req)
    then field (field o "metadata") "userId"
    else VUndef in
  let log :=
    mkPaymentLog (new_oid (oid_counter w)) uid VUndef (VObj (body req))
      (if truthy (field o "status") then field o "status" else VStr "NO-STATUS")
      (event_type req) in
  let renewal :=
    is_str (event_type req) "customer.subscription.updated"
    && match findOne (incomplete_with store_match (field o "id"))
               (subscriptions w) with
       | Some _ => false
       | None => true
       end
    && negb (truthy (field o "cancel_at_period_end")) in
  paymentLogs w'
  = (if renewal
     then updateOne (referenced_log store_match req) (renewal_patch req)
            (paymentLogs w ++ [log])
     else paymentLogs w ++ [log])
  /\ log_ids w' = log_ids w ++ [new_oid (oid_counter w)].
Proof.
  intros Hc Hp H. cbv zeta.
  destruct (nullish (event_data req)) eqn:Hd;
    [rewrite (webHook_run_no_data req w Hd) in H; discriminate H|].
  destruct (event_kind (event_type req))
    as [K|[K|[K|[K|(Hi & Hm & _ & _)]]]].
  - assert (Hf : invoice_family (event_type req) = true)
      by (destruct K as [K|[K|K]]; rewrite K; reflexivity).
    assert (Hu : is_str (event_type req) "customer.subscription.updated" = false)
      by (destruct K as [K|[K|K]]; rewrite K; reflexivity).
    rewrite (webHook_run_invoice req w Hf Hd) in H. rewrite Hf, Hu.
    destruct (_ || _); [discriminate H|]. injection H as _ <-.
    cbn [andb]. unfold log_ids. cbn. split; [reflexivity|].
    now rewrite map_app.
  - assert (Hf : metadata_family (event_type req) = true)
      by (destruct K as [K|K]; rewrite K; reflexivity).
    assert (Hi : invoice_family (event_type req) = false)
      by (destruct K as [K|K]; rewrite K; reflexivity).
    rewrite Hi, Hf.
    destruct (nullish (event_object req)
              || nullish (field (event_object req) "metadata")) eqn:Hn.
    { rewrite (webHook_run_no_metadata req w K Hd Hn) in H. discriminate H. }
    assert (Hcs : carries_subscription req = true).
    { unfold carries_subscription. rewrite Hd.
      apply orb_false_elim in Hn as [-> ->]. reflexivity. }
    destruct K as [K|K].
    + pose proof (webHook_run_created store_match changeUnixTimestampFormat
                    new_oid req w K Hcs) as Hrun.
      cbv zeta in Hrun. rewrite Hrun in H. injection H as _ <-.
      assert (Hu : is_str (event_type req) "customer.subscription.updated"
                   = false) by (rewrite K; reflexivity).
      rewrite Hu. cbn [andb].
      unfold log_ids. cbn. split; [reflexivity|].
      now rewrite map_app.
    + assert (Hu : is_str (event_type req) "customer.subscription.updated"
                   = true) by (rewrite K; reflexivity).
      rewrite Hu. cbn [andb].
      destruct (findOne (incomplete_with store_match
                           (field (event_object req) "id")) (subscriptions w))
        as [sub|] eqn:Hfind.
      * rewrite (webHook_run_incomplete store_match changeUnixTimestampFormat
                   new_oid req w sub K Hcs Hfind) in H.
        injection H as _ <-. unfold log_ids. cbn.
        split; [reflexivity | now rewrite map_app].
      * destruct (truthy (field (event_object req) "cancel_at_period_end"))
          eqn:Hcancel; cbn [negb andb].
        -- rewrite (webHook_run_cancellation req w K Hcs Hfind Hcancel) in H.
           injection H as _ <-. unfold log_ids. cbn.
           split; [reflexivity | now rewrite map_app].
        -- pose proof (webHook_run_renewal store_match changeUnixTimestampFormat
                         new_oid req w K Hcs Hfind Hcancel) as Hrun.
           cbv zeta in Hrun. rewrite Hrun in H. injection H as _ <-.
           unfold log_ids. cbn. split; [reflexivity|].
           rewrite updateOne_keeps_log_ids by reflexivity.
           now rewrite map_app.
  - assert (Hf : metadata_family (event_type req) = true)
      by (destruct K as [K|[K|K]]; rewrite K; reflexivity).
    assert (Hi : invoice_family (event_type req) = false)
      by (destruct K as [K|[K|K]]; rewrite K; reflexivity).
    assert (Hu : is_str (event_type req) "customer.subscription.updated" = false)
      by (destruct K as [K|[K|K]]; rewrite K; reflexivity).
    rewrite (webHook_run_session req w K Hd) in H. rewrite Hi, Hf, Hu.
    destruct (_ || _); [discriminate H|]. injection H as _ <-.
    cbn [andb]. unfold log_ids. cbn. split; [reflexivity|].
    now rewrite map_app.
  - destruct K as [K|K]; rewrite K in *; discriminate.
  - assert (Hu : is_str (event_type req) "customer.subscription.updated" = false).
    { unfold metadata_family in Hm.
      apply orb_false_elim in Hm as [Hm _]. apply orb_false_elim in Hm as [Hm _].
      apply orb_false_elim in Hm as [Hm _]. now apply orb_false_elim in Hm. }
    rewrite (webHook_run_unlisted req w Hi Hm Hc Hp Hd) in H.
    injection H as _ <-. rewrite Hi, Hm, Hu.
    cbn [andb]. unfold log_ids. cbn. split; [reflexivity|].
    now rewrite map_app.
Qed.

End Coverage.

(** ** The rest at work on the concrete instance *)

Lemma fresh_oid_inj (m n : nat) : Demo.fresh_oid m = Demo.fresh_oid n -> m = n.
Proof.
  unfold Demo.fresh_oid. simpl. intros H. injection H as H.
  revert n H. induction m as [|m IH]; intros [|n] H; simpl in H;
    try discriminate H; [reflexivity|].
  injection H as H. f_equal. now apply IH.
Qed.

Lemma open_db_ids_ok : ids_ok Demo.fresh_oid Demo.open_db.
Proof.
  repeat split; try distinct.
Qed.

Lemma webHook_answers_readable_witness :
  envelope_readable Demo.session_event = true
  /\ exists w',
       webHook Demo.query Demo.timestamp Demo.fresh_oid Demo.session_event Demo.open_db
       = (Ok (mkResponse 200 None), w').
Proof.
  split; [reflexivity|].
  apply (webHook_answers_readable Demo.query Demo.timestamp Demo.fresh_oid). reflexivity.
Defined.

Lemma webHook_throws_unreadable_witness :
  envelope_readable (Demo.stripe_event "invoice.created" Demo.one_off_invoice)
  = false
  /\ webHook Demo.query Demo.timestamp Demo.fresh_oid
       (Demo.stripe_event "invoice.created" Demo.one_off_invoice) Demo.open_db
     = (Throw TypeError, Demo.open_db).
Proof.
  split; [reflexivity|].
  apply (webHook_throws_unreadable Demo.query Demo.timestamp Demo.fresh_oid). reflexivity.
Defined.

Lemma webHook_plain_event_witness :
  envelope_readable Demo.session_event = true
  /\ paymentLogs
       (snd (webHook Demo.query Demo.timestamp Demo.fresh_oid Demo.session_event Demo.open_db))
     = [Demo.attempt "log-a";
        event_log Demo.session_event (VStr "u1") (Demo.fresh_oid 7)]
  /\ envelope_readable Demo.invoice_event = true
  /\ paymentLogs
       (snd (webHook Demo.query Demo.timestamp Demo.fresh_oid Demo.invoice_event Demo.open_db))
     = [Demo.attempt "log-a";
        event_log Demo.invoice_event VUndef (Demo.fresh_oid 7)].
Proof.
  split; [reflexivity|]. split.
  - rewrite (webHook_plain_event Demo.query Demo.timestamp Demo.fresh_oid Demo.session_event
               Demo.open_db eq_refl eq_refl eq_refl eq_refl eq_refl).
    reflexivity.
  - split; [reflexivity|].
    rewrite (webHook_plain_event Demo.query Demo.timestamp Demo.fresh_oid Demo.invoice_event
               Demo.open_db eq_refl eq_refl eq_refl eq_refl eq_refl).
    reflexivity.
Defined.

Lemma webHook_pending_cancellation_witness :
  event_type Demo.cancel_event = VStr "customer.subscription.updated"
  /\ carries_subscription Demo.cancel_event = true
  /\ truthy (field (event_object Demo.cancel_event) "cancel_at_period_end") = true
  /\ (forall d, In d (subscriptions Demo.renewing_db) ->
                incomplete_with Demo.query (field (event_object Demo.cancel_event) "id") d
                = false)
  /\ exists w' log,
       webHook Demo.query Demo.timestamp Demo.fresh_oid Demo.cancel_event Demo.renewing_db
       = (Ok (mkResponse 200 None), w')
       /\ subscriptions w' = subscriptions Demo.renewing_db
       /\ paymentLogs w' = paymentLogs Demo.renewing_db ++ [log]
       /\ log_userId log = VStr "u1"
       /\ response log = VObj (body Demo.cancel_event)
       /\ status log = VStr "active".
Proof.
  assert (Hnone : forall d, In d (subscriptions Demo.renewing_db) ->
            incomplete_with Demo.query (field (event_object Demo.cancel_event) "id") d = false).
  { intros d [<-|[]]. reflexivity. }
  split; [reflexivity|]. split; [reflexivity|]. split; [reflexivity|].
  split; [exact Hnone|].
  apply (webHook_pending_cancellation Demo.query Demo.timestamp Demo.fresh_oid
           Demo.cancel_event Demo.renewing_db eq_refl eq_refl eq_refl Hnone).
Defined.

Lemma webHook_other_events_keep_subscriptions_witness :
  is_str (event_type Demo.customer_event) "customer.subscription.created" = false
  /\ is_str (event_type Demo.customer_event) "customer.subscription.updated" = false
  /\ subscriptions
       (snd (webHook Demo.query Demo.timestamp Demo.fresh_oid Demo.customer_event
               Demo.subscribed_db))
     = subscriptions Demo.subscribed_db.
Proof.
  split; [reflexivity|]. split; [reflexivity|].
  apply (webHook_other_events_keep_subscriptions Demo.query Demo.timestamp Demo.fresh_oid);
    reflexivity.
Defined.

Lemma handlers_keep_ids_unique_witness :
  (forall m n, Demo.fresh_oid m = Demo.fresh_oid n -> m = n)
  /\ ids_ok Demo.fresh_oid Demo.open_db
  /\ ids_ok Demo.fresh_oid
       (snd (webHook Demo.query Demo.timestamp Demo.fresh_oid Demo.create_event Demo.open_db))
  /\ ids_ok Demo.fresh_oid
       (snd (createCheckoutSession Demo.fresh_oid Demo.text Demo.url
               Demo.plain_checkout Demo.open_db)).
Proof.
  split; [exact fresh_oid_inj|]. split; [exact open_db_ids_ok|].
  split.
  - apply (handlers_keep_ids_unique Demo.query Demo.timestamp Demo.fresh_oid Demo.text
             Demo.url fresh_oid_inj Demo.create_event Demo.open_db open_db_ids_ok).
  - apply (handlers_keep_ids_unique Demo.query Demo.timestamp Demo.fresh_oid Demo.text
             Demo.url fresh_oid_inj Demo.plain_checkout Demo.open_db
             open_db_ids_ok).
Defined.

Lemma createCheckoutSession_unknown_user_witness :
  invalid_checkout (Demo.checkout Demo.urls "u9") = false
  /\ ~ In "u9"%string (users Demo.subscribed_db)
  /\ createCheckoutSession Demo.fresh_oid Demo.text Demo.url
       (Demo.checkout Demo.urls "u9") Demo.subscribed_db
     = (Throw (Error "User not found."), set_res_status 401 Demo.subscribed_db).
Proof.
  assert (Hu : ~ In "u9"%string (users Demo.subscribed_db))
    by (simpl; intuition discriminate).
  split; [reflexivity|]. split; [exact Hu|].
  apply (createCheckoutSession_unknown_user Demo.fresh_oid Demo.text Demo.url
           (Demo.checkout Demo.urls "u9") Demo.subscribed_db eq_refl Hu).
Defined.

Lemma createCheckoutSession_no_plan_witness :
  invalid_checkout Demo.plain_checkout = false
  /\ In "u2"%string (users Demo.no_plan_db)
  /\ (forall d, In d (subscriptions Demo.no_plan_db) ->
                holds_subscription "u2" (clock Demo.no_plan_db) d = false)
  /\ stripe_products Demo.no_plan_db = []
  /\ createCheckoutSession Demo.fresh_oid Demo.text Demo.url Demo.plain_checkout
       Demo.no_plan_db
     = (Throw (Error "Plan not found."),
        set_res_status 401 (set_stripe_calls [ProductsList] Demo.no_plan_db)).
Proof.
  assert (Hnone : forall d, In d (subscriptions Demo.no_plan_db) ->
            holds_subscription "u2" (clock Demo.no_plan_db) d = false)
    by (intros d []).
  split; [reflexivity|]. split; [simpl; auto|]. split; [exact Hnone|].
  split; [reflexivity|].
  apply (createCheckoutSession_no_plan Demo.fresh_oid Demo.text Demo.url
           Demo.plain_checkout Demo.no_plan_db eq_refl);
    [simpl; auto | exact Hnone | reflexivity].
Defined.

Lemma open_db_no_holder (u : oid) (d : Subscription) :
  In d (subscriptions Demo.open_db) ->
  holds_subscription u (clock Demo.open_db) d = false.
Proof. intros []. Qed.



Lemma createCheckoutSession_conflict_only_if_witness :
  createCheckoutSession Demo.fresh_oid Demo.text Demo.url
    (Demo.checkout Demo.urls "u1") Demo.subscribed_db
  = (Throw (Error "Subscription already exist."),
     set_res_status 401 Demo.subscribed_db)
  /\ exists d ms,
       In d (subscriptions Demo.subscribed_db)
       /\ userId d = VStr "u1"
       /\ (subscriptionStatus d = VStr "active"
           \/ subscriptionStatus d = VStr "trialing")
       /\ endDate d = VDate ms
       /\ clock Demo.subscribed_db <= ms.
Proof.
  split; [reflexivity|].
  apply (createCheckoutSession_conflict_only_if Demo.fresh_oid Demo.text Demo.url
           (Demo.checkout Demo.urls "u1") Demo.subscribed_db
           (set_res_status 401 Demo.subscribed_db) eq_refl).
Defined.

Lemma cancelPayment_missing_id_witness :
  truthy (prop (body (mkRequest [] "u1")) "paymentId") = false
  /\ cancelPayment Demo.query (mkRequest [] "u1") Demo.open_db
     = (Throw (Error "Please pass required all parameters."),
        set_res_status 400 Demo.open_db).
Proof.
  split; [reflexivity|].
  apply (cancelPayment_missing_id Demo.query (mkRequest [] "u1") Demo.open_db eq_refl).
Defined.

Lemma cancelSubscription_missing_id_witness :
  truthy (prop (body (mkRequest [("subscriptionId", VStr EmptyString)] "u1"))
            "subscriptionId") = false
  /\ cancelSubscription Demo.query (mkRequest [("subscriptionId", VStr EmptyString)] "u1")
       Demo.subscribed_db
     = (Throw (Error "Please pass required all parameters."),
        set_res_status 400 Demo.subscribed_db).
Proof.
  split; [reflexivity|].
  apply (cancelSubscription_missing_id Demo.query
           (mkRequest [("subscriptionId", VStr EmptyString)] "u1")
           Demo.subscribed_db eq_refl).
Defined.

Lemma cancelPayment_unknown_id_witness :
  prop (body (Demo.cancel_attempt "log-z" "u1")) "paymentId" = VStr "log-z"
  /\ "log-z"%string <> EmptyString
  /\ (forall d, In d (paymentLogs Demo.two_logs_db) -> log_id d <> "log-z"%string)
  /\ cancelPayment Demo.query (Demo.cancel_attempt "log-z" "u1") Demo.two_logs_db
     = (Ok (mkResponse 200 (Some success_body)),
        set_res_status 200 Demo.two_logs_db).
Proof.
  assert (Hne : "log-z"%string <> EmptyString) by discriminate.
  assert (Hnone : forall d, In d (paymentLogs Demo.two_logs_db) ->
            log_id d <> "log-z"%string).
  { intros d [<-|[<-|[]]]; discriminate. }
  split; [reflexivity|]. split; [exact Hne|]. split; [exact Hnone|].
  apply (cancelPayment_unknown_id Demo.query (Demo.cancel_attempt "log-z" "u1")
           Demo.two_logs_db "log-z" eq_refl Hne Hnone).
Defined.

Lemma cancelPayment_patch_witness :
  truthy (prop (body (Demo.cancel_attempt "log-a" "u2")) "paymentId") = true
  /\ paymentLogs Demo.two_logs_db
     = [Demo.other_attempt] ++ Demo.attempt "log-a" :: []
  /\ exists p',
       paymentLogs (snd (cancelPayment Demo.query
                           (Demo.cancel_attempt "log-a" "u2") Demo.two_logs_db))
       = [Demo.other_attempt] ++ p' :: []
       /\ status p' = VStr "cancel"
       /\ event p' = VStr "cancel"
       /\ log_id p' = log_id (Demo.attempt "log-a")
       /\ log_userId p' = log_userId (Demo.attempt "log-a")
       /\ request p' = request (Demo.attempt "log-a")
       /\ response p' = response (Demo.attempt "log-a").
Proof.
  split; [reflexivity|]. split; [reflexivity|].
  apply (cancelPayment_patch Demo.query (Demo.cancel_attempt "log-a" "u2")
           Demo.two_logs_db [Demo.other_attempt] [] (Demo.attempt "log-a")
           eq_refl eq_refl);
    [repeat constructor | reflexivity].
Defined.

Lemma cancelSubscription_only_if_witness :
  stripe_calls (snd (cancelSubscription Demo.query (Demo.cancel_sub "sub_0" "u1")
                       Demo.subscribed_db))
  <> stripe_calls Demo.subscribed_db
  /\ (exists d ms,
        In d (subscriptions Demo.subscribed_db)
        /\ userId d = VStr "u1"
        /\ subscriptionId d = VStr "sub_0"
        /\ (subscriptionStatus d = VStr "active"
            \/ subscriptionStatus d = VStr "trialing")
        /\ endDate d = VDate ms
        /\ clock Demo.subscribed_db <= ms)
  /\ stripe_calls (snd (cancelSubscription Demo.query
                          (Demo.cancel_sub "sub_0" "u1") Demo.subscribed_db))
     = [cancel_at_period_end (VStr "sub_0")].
Proof.
  assert (Hcalled : stripe_calls
            (snd (cancelSubscription Demo.query (Demo.cancel_sub "sub_0" "u1")
                    Demo.subscribed_db))
          <> stripe_calls Demo.subscribed_db) by (simpl; discriminate).
  split; [exact Hcalled|].
  destruct (cancelSubscription_only_if Demo.query (Demo.cancel_sub "sub_0" "u1")
              Demo.subscribed_db Hcalled)
    as [(d & ms & Hin & Hu & _ & Hid & Hst & Hend & Hle) Hcalls].
  split; [|exact Hcalls].
  exists d, ms. repeat split; try assumption. exact (Hid "sub_0"%string eq_refl).
Defined.

Lemma handleCreateSubscription_without_metadata_witness :
  nullish (VObj [("id", VStr "sub_1")])
  || nullish (field (VObj [("id", VStr "sub_1")]) "metadata") = true
  /\ handleCreateSubscription Demo.timestamp Demo.fresh_oid
       (VObj [("id", VStr "sub_1")]) (VStr "renewal") Demo.open_db
     = (Throw TypeError, Demo.open_db).
Proof.
  split; [reflexivity|].
  apply (handleCreateSubscription_without_metadata Demo.timestamp Demo.fresh_oid
           (VObj [("id", VStr "sub_1")]) (VStr "renewal") Demo.open_db eq_refl).
Defined.

Lemma webHook_created_twice_witness :
  event_type Demo.create_event = VStr "customer.subscription.created"
  /\ carries_subscription Demo.create_event = true
  /\ exists d1 d2 l1 l2,
       subscriptions
         (snd (webHook Demo.query Demo.timestamp Demo.fresh_oid Demo.create_event
                 (snd (webHook Demo.query Demo.timestamp Demo.fresh_oid Demo.create_event
                         Demo.open_db))))
       = subscriptions Demo.open_db ++ [d1; d2]
       /\ paymentLogs
            (snd (webHook Demo.query Demo.timestamp Demo.fresh_oid Demo.create_event
                    (snd (webHook Demo.query Demo.timestamp Demo.fresh_oid Demo.create_event
                            Demo.open_db))))
          = paymentLogs Demo.open_db ++ [l1; l2]
       /\ sub_id d1 = Demo.fresh_oid 8
       /\ sub_id d2 = Demo.fresh_oid 10
       /\ subscriptionId d1 = VStr "sub_1"
       /\ subscriptionId d2 = subscriptionId d1.
Proof.
  split; [reflexivity|]. split; [reflexivity|].
  destruct (webHook_created_twice Demo.query Demo.timestamp Demo.fresh_oid Demo.create_event
              Demo.open_db eq_refl eq_refl)
    as (d1 & d2 & l1 & l2 & Hs & Hl & H1 & H2 & H3 & H4 & _).
  exists d1, d2, l1, l2. repeat split; assumption.
Defined.

Lemma checkout_then_cancelPayment_witness :
  invalid_checkout Demo.plain_checkout = false
  /\ In "u2"%string (users Demo.open_db)
  /\ Demo.fresh_oid (oid_counter Demo.open_db) <> EmptyString
  /\ ~ In (Demo.fresh_oid (oid_counter Demo.open_db)) (log_ids Demo.open_db)
  /\ paymentLogs
       (snd (cancelPayment Demo.query (Demo.cancel_attempt (Demo.fresh_oid 7) "u1")
               (snd (createCheckoutSession Demo.fresh_oid Demo.text Demo.url
                       Demo.plain_checkout Demo.open_db))))
     = [Demo.attempt "log-a";
        mkPaymentLog (Demo.fresh_oid 7) (VStr "u2")
          (VObj [("price", VStr "price_1"); ("quantity", VNum 1)])
          VUndef (VStr "cancel") (VStr "cancel")].
Proof.
  assert (Hne : Demo.fresh_oid (oid_counter Demo.open_db) <> EmptyString)
    by discriminate.
  assert (Hfresh : ~ In (Demo.fresh_oid (oid_counter Demo.open_db))
                     (log_ids Demo.open_db))
    by (simpl; intuition discriminate).
  split; [reflexivity|]. split; [simpl; auto|]. split; [exact Hne|].
  split; [exact Hfresh|].
  apply (checkout_then_cancelPayment Demo.query Demo.fresh_oid Demo.text Demo.url
           Demo.plain_checkout Demo.open_db _ _ "u1" eq_refl
           (or_intror (or_introl eq_refl)) (open_db_no_holder "u2")
           eq_refl eq_refl Hne Hfresh).
Defined.

Lemma webHook_created_then_checkout_witness :
  event_type Demo.create_event = VStr "customer.subscription.created"
  /\ carries_subscription Demo.create_event = true
  /\ Demo.timestamp (field (event_object Demo.create_event) "current_period_end")
     = VDate 9000
  /\ clock Demo.open_db <= 9000
  /\ invalid_checkout (Demo.checkout Demo.urls "u1") = false
  /\ fst (createCheckoutSession Demo.fresh_oid Demo.text Demo.url
            (Demo.checkout Demo.urls "u1")
            (snd (webHook Demo.query Demo.timestamp Demo.fresh_oid Demo.create_event
                    Demo.open_db)))
     = Throw (Error "Subscription already exist.").
Proof.
  assert (Hle : clock Demo.open_db <= 9000) by (simpl; lia).
  split; [reflexivity|]. split; [reflexivity|]. split; [reflexivity|].
  split; [exact Hle|]. split; [reflexivity|].
  rewrite (webHook_created_then_checkout Demo.query Demo.timestamp Demo.fresh_oid Demo.text
             Demo.url Demo.create_event (Demo.checkout Demo.urls "u1")
             Demo.open_db 9000 eq_refl eq_refl eq_refl (or_intror eq_refl)
             eq_refl Hle eq_refl (or_introl eq_refl)).
  reflexivity.
Defined.

Lemma webHook_returns_200_witness :
  webHook Demo.query Demo.timestamp Demo.fresh_oid Demo.update_event Demo.pending_db
  = (Ok (mkResponse 200 None),
     snd (webHook Demo.query Demo.timestamp Demo.fresh_oid Demo.update_event Demo.pending_db))
  /\ mkResponse 200 None = mkResponse 200 None.
Proof.
  split; [reflexivity|].
  apply (webHook_returns_200 Demo.query Demo.timestamp Demo.fresh_oid Demo.update_event
           Demo.pending_db
           (snd (webHook Demo.query Demo.timestamp Demo.fresh_oid Demo.update_event
                   Demo.pending_db))
           (mkResponse 200 None) eq_refl).
Defined.

Lemma webHook_skips_charges_witness :
  is_str (event_type (Demo.stripe_event "charge.succeeded"
                        (VObj [("id", VStr "ch_1"); ("status", VStr "succeeded")])))
    "charge.succeeded"
  || is_str (event_type (Demo.stripe_event "charge.succeeded"
                           (VObj [("id", VStr "ch_1"); ("status", VStr "succeeded")])))
       "payment_method.attached" = true
  /\ paymentLogs
       (snd (webHook Demo.query Demo.timestamp Demo.fresh_oid
               (Demo.stripe_event "charge.succeeded"
                  (VObj [("id", VStr "ch_1"); ("status", VStr "succeeded")]))
               Demo.open_db))
     = paymentLogs Demo.open_db.
Proof.
  split; [reflexivity|].
  apply (webHook_skips_charges Demo.query Demo.timestamp Demo.fresh_oid). reflexivity.
Defined.

Lemma webHook_logs_event_witness :
  is_str (event_type Demo.update_event) "charge.succeeded" = false
  /\ is_str (event_type Demo.update_event) "payment_method.attached" = false
  /\ webHook Demo.query Demo.timestamp Demo.fresh_oid Demo.update_event
       Demo.two_logs_db
     = (Ok (mkResponse 200 None),
        snd (webHook Demo.query Demo.timestamp Demo.fresh_oid Demo.update_event
               Demo.two_logs_db))
  /\ paymentLogs
       (snd (webHook Demo.query Demo.timestamp Demo.fresh_oid Demo.update_event
               Demo.two_logs_db))
     = [Demo.other_attempt;
        mkPaymentLog "log-a" (VStr "u1")
          (VObj [("price", VStr "price_1"); ("quantity", VNum 1)])
          (VObj (body Demo.update_event)) (VStr "success")
          (VStr "customer.subscription.updated");
        mkPaymentLog (Demo.fresh_oid 7) (VStr "u1") VUndef
          (VObj (body Demo.update_event)) (VStr "active")
          (VStr "customer.subscription.updated")]
  /\ log_ids
       (snd (webHook Demo.query Demo.timestamp Demo.fresh_oid Demo.update_event
               Demo.two_logs_db))
     = ["log-b"; "log-a"; Demo.fresh_oid 7]%string.
Proof.
  split; [reflexivity|]. split; [reflexivity|]. split; [reflexivity|].
  apply (webHook_logs_event Demo.query Demo.timestamp Demo.fresh_oid
           Demo.update_event Demo.two_logs_db
           (snd (webHook Demo.query Demo.timestamp Demo.fresh_oid
                   Demo.update_event Demo.two_logs_db))
           (mkResponse 200 None) eq_refl eq_refl eq_refl).
Defined.

(** ** Operator objects in filters

    The controller hands request values to the store unchecked, so a filter
    value can be an operator object of the store's query language.  On the
    store of the concrete instance: *)

(** [cancelPayment] with [{paymentId: {$ne: null}}] cancels the first
    payment log, here that of another user. *)
Example cancelPayment_operator_id :
  paymentLogs
    (snd (cancelPayment Demo.query
            (mkRequest [("paymentId", VObj [("$ne", VNull)])] "u1")
            Demo.two_logs_db))
  = [set_status_event (VStr "cancel") (VStr "cancel") Demo.other_attempt;
     Demo.attempt "log-a"].
Proof. reflexivity. Qed.

(** An update event whose [data.object.id] is [{$ne: null}] activates the
    first incomplete record, whatever subscription it belongs to. *)
Example webHook_operator_id :
  subscriptions
    (snd (webHook Demo.query Demo.timestamp Demo.fresh_oid
            (Demo.stripe_event "customer.subscription.updated"
               (VObj [("id", VObj [("$ne", VNull)]); ("status", VStr "active");
                      ("metadata", VObj [("userId", VStr "u2")])]))
            Demo.pending_db))
  = [Demo.sub "s-a" "sub_0" "canceled" 4000;
     set_subscription_state (VStr "active") (VStr "new") Demo.pending].
Proof. reflexivity. Qed.
